(** * webcam_osc.visualizer: layout engine, camera step and pointer state machine

    A shallow embedding of [DataVisualizer] (src/webcam_osc/visualizer.py).
    Python integers are [Z]; the one float of the layout code, [scale_factor],
    is an exact rational [Q]; an attribute that may be unset is an [option];
    a call that may raise returns a [result]. *)

From Stdlib Require Import ZArith QArith Qround List Bool Lia.
From Stdlib Require Import Floats.PrimFloat Floats.SpecFloat Floats.FloatOps.
From Stdlib Require Import Numbers.Cyclic.Int63.Uint63.
From Stdlib Require Strings.String Strings.Ascii DecimalString.
Import ListNotations.

Local Open Scope Z_scope.

(** ** Python primitives *)

Module Py.

Inductive exn : Type :=
| ZeroDivisionError
| ValueError
| AttributeError
| Cv2Error.

Inductive result (A : Type) : Type :=
| Ok (a : A)
| Raise (e : exn).

Arguments Ok {A} a.
Arguments Raise {A} e.

Definition bind {A B : Type} (r : result A) (k : A -> result B) : result B :=
  match r with
  | Ok a => k a
  | Raise e => Raise e
  end.

Definition is_ok {A : Type} (r : result A) : bool :=
  match r with
  | Ok _ => true
  | Raise _ => false
  end.

(** [a / b] on two ints: true division, [ZeroDivisionError] when [b] is 0. *)
Definition truediv (a b : Z) : result Q :=
  if b =? 0 then Raise ZeroDivisionError else Ok (inject_Z a / inject_Z b)%Q.

(** [int(x)] on a float: truncation toward zero. *)
Definition int (x : Q) : Z := Z.quot (Qnum x) (Zpos (Qden x)).

(** [a // b] on two ints is floor division, [Z.div] for the positive
    divisors used here. *)
Definition floordiv (a b : Z) : Z := a / b.

End Py.

Import Py.

Notation "x <- r ;; k" := (bind r (fun x => k))
  (at level 61, r at next level, right associativity).

(** ** Configuration and the constants set in [__init__] *)

Record GridConfig : Type := mkGridConfig {
  rows : Z;
  cols : Z
}.

Definition max_height : Z := 900.
Definition max_width : Z := 1600.
Definition padding : Z := 10.
Definition text_padding : Z := 5.
Definition button_height : Z := 35.
Definition button_width : Z := 140.
Definition button_spacing : Z := 10.

(** ** Initial sizing *)

Record Sizes : Type := mkSizes {
  cell_size : Z;
  camera_width : Z;
  camera_height : Z;
  grid_width : Z;
  grid_height : Z
}.

Definition desired_cell_size : Z := 150.
Definition desired_camera_width : Z := 640.
Definition desired_camera_height : Z := 480.

Definition desired_grid_width (cfg : GridConfig) : Z :=
  (desired_cell_size * cols cfg) + (padding * (cols cfg + 1)).

Definition desired_grid_height (cfg : GridConfig) : Z :=
  (desired_cell_size * rows cfg) + (padding * (rows cfg + 1)).

Definition total_desired_height (cfg : GridConfig) : Z :=
  padding + desired_camera_height + padding + desired_grid_height cfg
  + padding + button_height + padding.

(** The local [scale_factor] of [_calculate_responsive_sizes]: 1.0 unless the
    expanded layout is taller than [max_height].  The source computes it in
    binary64; here it is the exact quotient. *)
Definition scale_factor (cfg : GridConfig) : result Q :=
  if total_desired_height cfg >? max_height
  then truediv max_height (total_desired_height cfg)
  else Ok 1%Q.

Definition _calculate_responsive_sizes (cfg : GridConfig) : result Sizes :=
  sf <- scale_factor cfg ;;
  let cell := int (inject_Z desired_cell_size * sf) in
  Ok {| cell_size := cell;
        camera_width := int (inject_Z desired_camera_width * sf);
        camera_height := int (inject_Z desired_camera_height * sf);
        grid_width := (cell * cols cfg) + (padding * (cols cfg + 1));
        grid_height := (cell * rows cfg) + (padding * (rows cfg + 1)) |}.

(** The same arithmetic in binary64, as the interpreter carries it out: the
    two ints of [max_height / total_desired_height] are below 2^53, so the
    true division is the IEEE quotient of their exact conversions, and
    [int * float] converts the int and multiplies.  It is used to check the
    exact model above against the rounding of the source. *)
Module Binary64.

Definition of_int (z : Z) : float := PrimFloat.of_uint63 (Uint63.of_Z z).

(** [int(x)]: truncation toward zero; infinities and NaN raise. *)
Definition to_int (x : float) : option Z :=
  match Prim2SF x with
  | S754_zero _ => Some 0
  | S754_finite s m e =>
      let magnitude :=
        if 0 <=? e then Z.pos m * 2 ^ e else Z.pos m / 2 ^ (- e) in
      Some (if s then - magnitude else magnitude)
  | S754_infinity _ => None
  | S754_nan => None
  end.

Definition scale_factor (cfg : GridConfig) : float :=
  if total_desired_height cfg >? max_height
  then PrimFloat.div (of_int max_height) (of_int (total_desired_height cfg))
  else PrimFloat.one.

Definition scaled (desired : Z) (cfg : GridConfig) : option Z :=
  to_int (PrimFloat.mul (of_int desired) (scale_factor cfg)).

(** The three scaled sizes agree with those of [sz]. *)
Definition agrees (cfg : GridConfig) (sz : Sizes) : bool :=
  match scaled desired_cell_size cfg,
        scaled desired_camera_width cfg,
        scaled desired_camera_height cfg with
  | Some cell, Some cam_w, Some cam_h =>
      (cell =? cell_size sz) && (cam_w =? camera_width sz)
      && (cam_h =? camera_height sz)
  | _, _, _ => false
  end.

End Binary64.

(** ** Layout *)

Definition Bounds : Type := (Z * Z * Z * Z)%type.

(** The attributes assigned by [_recalculate_layout].  The two block offsets
    are assigned only inside [if show_cam] and [if show_grid]: [None] is an
    attribute never assigned so far, and a hidden block keeps the value of
    the last layout in which it was shown. *)
Record Layout : Type := mkLayout {
  button_bar_y : Z;
  camera_y_offset : option Z;
  grid_y_offset : option Z;
  height : Z;
  width : Z;
  close_button_bounds : Bounds;
  toggle_camera_button_bounds : Bounds;
  toggle_grid_button_bounds : Bounds
}.

(** [max(widths) if widths else 400] *)
Definition py_max_or (widths : list Z) (fallback : Z) : Z :=
  match widths with
  | [] => fallback
  | w :: ws => fold_left Z.max ws w
  end.

(** [_recalculate_layout]: [sz] and the two flags are read from [self];
    [prev_cam_y] and [prev_grid_y] are the offsets stored on [self] before the
    call. *)
Definition _recalculate_layout (sz : Sizes) (show_cam show_grid : bool)
    (prev_cam_y prev_grid_y : option Z) : Layout :=
  let height0 := padding in
  let bar_y := height0 in
  let height1 := height0 + (button_height + padding) in
  let cam_y := if show_cam then Some height1 else prev_cam_y in
  let height2 :=
    if show_cam then height1 + (camera_height sz + padding) else height1 in
  let grid_y := if show_grid then Some height2 else prev_grid_y in
  let height3 :=
    if show_grid then height2 + (grid_height sz + padding) else height2 in
  let widths :=
    (if show_cam then [camera_width sz] else [])
    ++ (if show_grid then [grid_width sz] else []) in
  let content_width := py_max_or widths 400 in
  let w := content_width + (2 * padding) in
  let total_button_width := (button_width * 3) + (button_spacing * 2) in
  let button_start_x := floordiv (w - total_button_width) 2 in
  {| button_bar_y := bar_y;
     camera_y_offset := cam_y;
     grid_y_offset := grid_y;
     height := height3;
     width := w;
     close_button_bounds :=
       (button_start_x,
        bar_y,
        button_start_x + button_width,
        bar_y + button_height);
     toggle_camera_button_bounds :=
       (button_start_x + button_width + button_spacing,
        bar_y,
        button_start_x + (2 * button_width) + button_spacing,
        bar_y + button_height);
     toggle_grid_button_bounds :=
       (button_start_x + (2 * button_width) + (2 * button_spacing),
        bar_y,
        button_start_x + (3 * button_width) + (2 * button_spacing),
        bar_y + button_height) |}.

(** ** The visualizer object *)

Record DataVisualizer : Type := mkDataVisualizer {
  grid_config : GridConfig;
  should_close : bool;
  show_camera_runtime : bool;
  show_grid_runtime : bool;
  sizes : Sizes;
  layout : Layout;
  mouse_x : option Z;
  mouse_y : option Z
}.

(** [__init__], up to the two window calls, which do not touch the object. *)
Definition __init__ (cfg : GridConfig) (show_camera : bool)
    : result DataVisualizer :=
  sz <- _calculate_responsive_sizes cfg ;;
  Ok {| grid_config := cfg;
        should_close := false;
        show_camera_runtime := show_camera;
        show_grid_runtime := true;
        sizes := sz;
        layout := _recalculate_layout sz show_camera true None None;
        mouse_x := None;
        mouse_y := None |}.

(** ** Pointer events *)

Definition EVENT_MOUSEMOVE : Z := 0.
Definition EVENT_LBUTTONDOWN : Z := 1.

Definition _is_point_in_bounds (x y : Z) (bounds : Bounds) : bool :=
  let '(x1, y1, x2, y2) := bounds in
  ((x1 <=? x) && (x <=? x2)) && ((y1 <=? y) && (y <=? y2)).

(** [self.show_camera_runtime = not ...; self._recalculate_layout()] *)
Definition toggle_camera (s : DataVisualizer) : DataVisualizer :=
  let cam := negb (show_camera_runtime s) in
  {| grid_config := grid_config s;
     should_close := should_close s;
     show_camera_runtime := cam;
     show_grid_runtime := show_grid_runtime s;
     sizes := sizes s;
     layout := _recalculate_layout (sizes s) cam (show_grid_runtime s)
                 (camera_y_offset (layout s)) (grid_y_offset (layout s));
     mouse_x := mouse_x s;
     mouse_y := mouse_y s |}.

(** [self.show_grid_runtime = not ...; self._recalculate_layout()] *)
Definition toggle_grid (s : DataVisualizer) : DataVisualizer :=
  let grid := negb (show_grid_runtime s) in
  {| grid_config := grid_config s;
     should_close := should_close s;
     show_camera_runtime := show_camera_runtime s;
     show_grid_runtime := grid;
     sizes := sizes s;
     layout := _recalculate_layout (sizes s) (show_camera_runtime s) grid
                 (camera_y_offset (layout s)) (grid_y_offset (layout s));
     mouse_x := mouse_x s;
     mouse_y := mouse_y s |}.

Definition set_should_close (s : DataVisualizer) : DataVisualizer :=
  {| grid_config := grid_config s;
     should_close := true;
     show_camera_runtime := show_camera_runtime s;
     show_grid_runtime := show_grid_runtime s;
     sizes := sizes s;
     layout := layout s;
     mouse_x := mouse_x s;
     mouse_y := mouse_y s |}.

Definition set_mouse (x y : Z) (s : DataVisualizer) : DataVisualizer :=
  {| grid_config := grid_config s;
     should_close := should_close s;
     show_camera_runtime := show_camera_runtime s;
     show_grid_runtime := show_grid_runtime s;
     sizes := sizes s;
     layout := layout s;
     mouse_x := Some x;
     mouse_y := Some y |}.

(** [_mouse_callback(event, x, y, flags, param)]; [param] is never read. *)
Definition _mouse_callback (event x y flags : Z) (s : DataVisualizer)
    : DataVisualizer :=
  if event =? EVENT_MOUSEMOVE then set_mouse x y s
  else if event =? EVENT_LBUTTONDOWN then
    if _is_point_in_bounds x y (close_button_bounds (layout s))
    then set_should_close s
    else if _is_point_in_bounds x y (toggle_camera_button_bounds (layout s))
    then toggle_camera s
    else if _is_point_in_bounds x y (toggle_grid_button_bounds (layout s))
    then toggle_grid s
    else s
  else s.

Definition check_should_close (s : DataVisualizer) : bool := should_close s.

(** The part of [show] that touches the object: the close flag is raised when
    presenting fails or the window is no longer visible. *)
Definition show_result (surface_ok : bool) (s : DataVisualizer)
    : DataVisualizer :=
  if surface_ok then s else set_should_close s.

(** A pointer event as delivered to the callback. *)
Record PointerEvent : Type := mkPointerEvent {
  ev_code : Z;
  ev_x : Z;
  ev_y : Z;
  ev_flags : Z
}.

Definition pointerMove (x y : Z) : PointerEvent :=
  mkPointerEvent EVENT_MOUSEMOVE x y 0.

Definition pointerDown (x y : Z) : PointerEvent :=
  mkPointerEvent EVENT_LBUTTONDOWN x y 0.

Definition deliver (e : PointerEvent) (s : DataVisualizer) : DataVisualizer :=
  _mouse_callback (ev_code e) (ev_x e) (ev_y e) (ev_flags e) s.

Definition deliver_all (es : list PointerEvent) (s : DataVisualizer)
    : DataVisualizer :=
  fold_left (fun st e => deliver e st) es s.

(** The object after construction and a sequence of pointer events. *)
Definition session (cfg : GridConfig) (show_camera : bool)
    (es : list PointerEvent) : result DataVisualizer :=
  v <- __init__ cfg show_camera ;;
  Ok (deliver_all es v).

(** States the object can be in: after construction, and after any number of
    callbacks and presentations. *)
Inductive reachable (cfg : GridConfig) (show_camera : bool)
    : DataVisualizer -> Prop :=
| reach_init : forall v,
    __init__ cfg show_camera = Ok v -> reachable cfg show_camera v
| reach_event : forall s e,
    reachable cfg show_camera s -> reachable cfg show_camera (deliver e s)
| reach_show : forall s ok,
    reachable cfg show_camera s -> reachable cfg show_camera (show_result ok s).

(** ** Canvas set-up and camera step of [render] *)

Module Img.

(** A colour image as rows of (b, g, r) pixels. *)
Definition pixel : Type := (Z * Z * Z)%type.
Definition image : Type := list (list pixel).

Definition img_height (im : image) : Z := Z.of_nat (length im).

Definition img_width (im : image) : Z :=
  match im with
  | [] => 0
  | r :: _ => Z.of_nat (length r)
  end.

(** An image without pixels: no rows or no columns. *)
Definition img_empty (im : image) : bool :=
  (img_height im =? 0) || (img_width im =? 0).

Definition pixel_at (im : image) (y x : Z) : option pixel :=
  if (y <? 0) || (x <? 0) then None
  else match nth_error im (Z.to_nat y) with
       | None => None
       | Some r => nth_error r (Z.to_nat x)
       end.

(** [np.zeros((h, w, 3), dtype=np.uint8)] followed by [canvas.fill(v)];
    numpy refuses negative dimensions. *)
Definition np_filled (h w v : Z) : result image :=
  if (h <? 0) || (w <? 0) then Raise ValueError
  else Ok (repeat (repeat (v, v, v) (Z.to_nat w)) (Z.to_nat h)).

Fixpoint tabulate {A : Type} (f : Z -> A) (from : Z) (n : nat) : list A :=
  match n with
  | O => []
  | S n' => f from :: tabulate f (from + 1) n'
  end.

(** [cv2.resize(src, (w, h))]: OpenCV asserts that the source and the target
    size are not empty and raises [cv2.error] otherwise.  The result has [h]
    rows of [w] pixels; the interpolation is not modelled, each target pixel
    samples the source at the scaled position. *)
Definition cv2_resize (src : image) (w h : Z) : result image :=
  if img_empty src || (w <=? 0) || (h <=? 0) then Raise Cv2Error
  else
    let sh := img_height src in
    let sw := img_width src in
    Ok (tabulate
          (fun i =>
             tabulate
               (fun j =>
                  nth (Z.to_nat (j * sw / w))
                      (nth (Z.to_nat (i * sh / h)) src [])
                      (0, 0, 0))
               0 (Z.to_nat w))
          0 (Z.to_nat h)).

(** Python's [slice(start, stop).indices(len)] with step 1. *)
Definition slice_index (i len : Z) : Z :=
  if i <? 0 then Z.max (i + len) 0 else Z.min i len.

Definition slice_range (start stop len : Z) : Z * Z :=
  let lo := slice_index start len in
  let hi := slice_index stop len in
  (lo, Z.max (hi - lo) 0).

Fixpoint mapi_from {A : Type} (f : Z -> A -> A) (i : Z) (l : list A)
    : list A :=
  match l with
  | [] => []
  | a :: l' => f i a :: mapi_from f (i + 1) l'
  end.

(** [canvas[y0:y1, x0:x1] = patch]: the slices are clipped to the canvas and
    the patch must have the shape of the clipped region, up to numpy's
    broadcasting of a dimension of length one. *)
Definition np_assign_region (canvas : image) (y0 y1 x0 x1 : Z)
    (patch : image) : result image :=
  let '(ylo, ycount) := slice_range y0 y1 (img_height canvas) in
  let '(xlo, xcount) := slice_range x0 x1 (img_width canvas) in
  let ph := img_height patch in
  let pw := img_width patch in
  if ((ph =? ycount) || (ph =? 1)) && ((pw =? xcount) || (pw =? 1)) then
    Ok (mapi_from
          (fun i row =>
             if (ylo <=? i) && (i <? ylo + ycount) then
               mapi_from
                 (fun j px =>
                    if (xlo <=? j) && (j <? xlo + xcount) then
                      nth (Z.to_nat (if pw =? 1 then 0 else j - xlo))
                          (nth (Z.to_nat (if ph =? 1 then 0 else i - ylo))
                               patch [])
                          px
                    else px)
                 0 row
             else row)
          0 canvas)
  else Raise ValueError.

End Img.

Import Img.

Definition background : Z := 30.

(** Lines 104-111 of [render]: the canvas is allocated and filled, then the
    camera frame, when the camera is shown and a frame is passed, is resized
    and copied in.  The grid and button steps that follow draw on the canvas
    this returns. *)
Definition render_camera (s : DataVisualizer) (camera_frame : option image)
    : result image :=
  canvas <- np_filled (height (layout s)) (width (layout s)) background ;;
  match show_camera_runtime s, camera_frame with
  | true, Some frame =>
      resized <- cv2_resize frame (camera_width (sizes s))
                            (camera_height (sizes s)) ;;
      let camera_x :=
        floordiv (width (layout s) - camera_width (sizes s)) 2 in
      match camera_y_offset (layout s) with
      | None => Raise AttributeError
      | Some cam_y =>
          np_assign_region canvas
            cam_y (cam_y + camera_height (sizes s))
            camera_x (camera_x + camera_width (sizes s))
            resized
      end
  | _, _ => Ok canvas
  end.

(** The geometry with the offsets of hidden blocks left out: the renderer
    reads [camera_y_offset] and [grid_y_offset] only while the block is
    shown. *)
Definition mask_hidden (show_cam show_grid : bool) (l : Layout) : Layout :=
  {| button_bar_y := button_bar_y l;
     camera_y_offset := if show_cam then camera_y_offset l else None;
     grid_y_offset := if show_grid then grid_y_offset l else None;
     height := height l;
     width := width l;
     close_button_bounds := close_button_bounds l;
     toggle_camera_button_bounds := toggle_camera_button_bounds l;
     toggle_grid_button_bounds := toggle_grid_button_bounds l |}.

Definition visible_geometry (s : DataVisualizer) : Layout :=
  mask_hidden (show_camera_runtime s) (show_grid_runtime s) (layout s).

(** A pointer-down that lands on one of the two toggle buttons and not on
    Close, judged against the bounds stored in [s]. *)
Definition hits_toggle (s : DataVisualizer) (e : PointerEvent) : bool :=
  (ev_code e =? EVENT_LBUTTONDOWN)
  && negb (_is_point_in_bounds (ev_x e) (ev_y e)
             (close_button_bounds (layout s)))
  && (_is_point_in_bounds (ev_x e) (ev_y e)
        (toggle_camera_button_bounds (layout s))
      || _is_point_in_bounds (ev_x e) (ev_y e)
           (toggle_grid_button_bounds (layout s))).

(** The stored layout is the one [_recalculate_layout] yields for the current
    flags; only the offset of a hidden block is left free. *)
Definition layout_in_sync (s : DataVisualizer) : Prop :=
  layout s =
  _recalculate_layout (sizes s) (show_camera_runtime s) (show_grid_runtime s)
    (camera_y_offset (layout s)) (grid_y_offset (layout s)).

Definition set_camera_y_offset (o : option Z) (s : DataVisualizer)
    : DataVisualizer :=
  let l := layout s in
  {| grid_config := grid_config s;
     should_close := should_close s;
     show_camera_runtime := show_camera_runtime s;
     show_grid_runtime := show_grid_runtime s;
     sizes := sizes s;
     layout :=
       {| button_bar_y := button_bar_y l;
          camera_y_offset := o;
          grid_y_offset := grid_y_offset l;
          height := height l;
          width := width l;
          close_button_bounds := close_button_bounds l;
          toggle_camera_button_bounds := toggle_camera_button_bounds l;
          toggle_grid_button_bounds := toggle_grid_button_bounds l |};
     mouse_x := mouse_x s;
     mouse_y := mouse_y s |}.

Definition set_grid_y_offset (o : option Z) (s : DataVisualizer)
    : DataVisualizer :=
  let l := layout s in
  {| grid_config := grid_config s;
     should_close := should_close s;
     show_camera_runtime := show_camera_runtime s;
     show_grid_runtime := show_grid_runtime s;
     sizes := sizes s;
     layout :=
       {| button_bar_y := button_bar_y l;
          camera_y_offset := camera_y_offset l;
          grid_y_offset := o;
          height := height l;
          width := width l;
          close_button_bounds := close_button_bounds l;
          toggle_camera_button_bounds := toggle_camera_button_bounds l;
          toggle_grid_button_bounds := toggle_grid_button_bounds l |};
     mouse_x := mouse_x s;
     mouse_y := mouse_y s |}.

(** Where the grid block starts when it is shown. *)
Definition grid_top (sz : Sizes) (show_cam : bool) : Z :=
  if show_cam
  then padding + (button_height + padding) + (camera_height sz + padding)
  else padding + (button_height + padding).

(** The expanded height in the words of the specification: the leading
    padding, then the button bar, the camera and the grid at the desired
    sizes, each followed by one padding. *)
Definition spec_expanded_height (cfg : GridConfig) : Z :=
  padding
  + (button_height + padding)
  + (desired_camera_height + padding)
  + (desired_grid_height cfg + padding).

Definition x1_of (b : Bounds) : Z := let '(x1, _, _, _) := b in x1.
Definition y1_of (b : Bounds) : Z := let '(_, y1, _, _) := b in y1.
Definition x2_of (b : Bounds) : Z := let '(_, _, x2, _) := b in x2.
Definition y2_of (b : Bounds) : Z := let '(_, _, _, y2) := b in y2.

(** Two rectangles share no point under the inclusive hit test. *)
Definition bounds_disjoint (a b : Bounds) : Prop :=
  forall x y,
    _is_point_in_bounds x y a = true -> _is_point_in_bounds x y b = false.

(** ** Drawing: the grid and button steps of [render], [show] and the
    loading screen

    The OpenCV drawing calls are recorded in the order the code issues them.
    [cv2.getTextSize] and the two float formats of the f-strings are taken as
    given functions; the floats of a cell are binary64 values. *)

Module Draw.

Import String.
Local Open Scope string_scope.

(** What a call raised: one of the exceptions above, or the [OverflowError]
    of [int] on an infinity. *)
Inductive raised : Type :=
| Known (e : exn)
| OverflowError.

Inductive outcome (A : Type) : Type :=
| Returns (a : A)
| Raises (e : raised).

Arguments Returns {A} a.
Arguments Raises {A} e.

Definition and_then {A B : Type} (r : outcome A) (k : A -> outcome B)
    : outcome B :=
  match r with
  | Returns a => k a
  | Raises e => Raises e
  end.

Notation "x <-- r ;; k" := (and_then r (fun x => k))
  (at level 61, r at next level, right associativity).

Definition of_result {A : Type} (r : result A) : outcome A :=
  match r with
  | Ok a => Returns a
  | Raise e => Raises (Known e)
  end.

(** [int(x)] on a binary64 value: [ValueError] on NaN, [OverflowError] on an
    infinity, truncation toward zero otherwise. *)
Definition int_of_float (x : float) : outcome Z :=
  match Binary64.to_int x with
  | Some z => Returns z
  | None =>
      if PrimFloat.is_nan x then Raises (Known ValueError)
      else Raises OverflowError
  end.

Record CellData : Type := mkCellData {
  row : Z;
  col : Z;
  dominant_color : float * float * float;
  avg_red : float;
  avg_green : float;
  avg_blue : float;
  brightness : float;
  contrast : float
}.

Definition Color : Type := (Z * Z * Z)%type.

(** One call of [cv2.rectangle], [cv2.putText] or [cv2.circle] on the
    canvas, with the arguments the code passes. *)
Inductive DrawCmd : Type :=
| Rectangle (pt1 pt2 : Z * Z) (color : Color) (thickness : Z)
| PutText (text : string) (org : Z * Z) (font : Z) (font_scale : float)
    (color : Color) (thickness : Z) (line_type : Z)
| Circle (center : Z * Z) (radius : Z) (color : Color) (thickness : Z).

Definition FONT_HERSHEY_SIMPLEX : Z := 0.
Definition LINE_AA : Z := 16.

(** The float literals 0.35, 0.5 and 0.8 as the binary64 values they denote. *)
Definition float_0_35 : float := 0x1.6666666666666p-2%float.
Definition float_0_5 : float := 0x1p-1%float.
Definition float_0_8 : float := 0x1.999999999999ap-1%float.

(** [str(n)] of an int inside an f-string. *)
Definition str (n : Z) : string :=
  DecimalString.NilZero.string_of_int (Z.to_int n).

(** [text[:-1]] *)
Fixpoint drop_last (text : string) : string :=
  match text with
  | EmptyString => EmptyString
  | String c EmptyString => EmptyString
  | String c rest => String c (drop_last rest)
  end.

(** [_is_mouse_over_bounds]: false until both [mouse_x] and [mouse_y] have
    been assigned. *)
Definition _is_mouse_over_bounds (s : DataVisualizer) (bounds : Bounds)
    : bool :=
  match mouse_x s, mouse_y s with
  | Some mx, Some my => _is_point_in_bounds mx my bounds
  | _, _ => false
  end.

Section Text.

(** [cv2.getTextSize(text, font, font_scale, thickness)[0]]: width and
    height of the rendered text. *)
Variable getTextSize : string -> Z -> float -> Z -> Z * Z.

(** [f"{x:.0f}"] and [f"{x:.2f}"]. *)
Variable format_0f : float -> string.
Variable format_2f : float -> string.

(** *** Buttons *)

Definition _draw_button (s : DataVisualizer) (bounds : Bounds) (text : string)
    (normal_color hover_color : Color) (font : Z) (font_scale : float)
    (thickness : Z) : list DrawCmd :=
  let '(x1, y1, x2, y2) := bounds in
  let is_hovered := _is_mouse_over_bounds s bounds in
  let button_color := if is_hovered then hover_color else normal_color in
  let text_size := getTextSize text font font_scale thickness in
  let text_x := x1 + floordiv ((x2 - x1) - fst text_size) 2 in
  let text_y := y1 + floordiv ((y2 - y1) + snd text_size) 2 in
  [ Rectangle (x1, y1) (x2, y2) button_color (-1);
    Rectangle (x1, y1) (x2, y2) (120, 120, 120) 1;
    PutText text (text_x, text_y) font font_scale (255, 255, 255) thickness
      LINE_AA ].

Definition _draw_buttons (s : DataVisualizer) : list DrawCmd :=
  let font := FONT_HERSHEY_SIMPLEX in
  let font_scale := float_0_5 in
  let thickness := 1 in
  let camera_text :=
    if show_camera_runtime s then "Hide Camera" else "Show Camera" in
  let grid_text :=
    if show_grid_runtime s then "Hide Grid" else "Show Grid" in
  (_draw_button s (close_button_bounds (layout s)) "Close"
     (60, 60, 200) (80, 80, 220) font font_scale thickness
   ++ _draw_button s (toggle_camera_button_bounds (layout s)) camera_text
        (60, 120, 60) (80, 150, 80) font font_scale thickness
   ++ _draw_button s (toggle_grid_button_bounds (layout s)) grid_text
        (120, 60, 60) (150, 80, 80) font font_scale thickness)%list.

(** *** Text lines of a tile (lines 136-169 of [render]) *)

Definition line_height : Z := 14.

(** The [while] loop of the truncation: one character is dropped from the
    end as long as more than three are left and the text with the ellipsis
    is wider than [max_text_width].  Each round shortens the text, so a fuel
    of its length is never used up. *)
Fixpoint shrink_text (fuel : nat) (max_text_width : Z) (text : string)
    : string :=
  match fuel with
  | O => text
  | S fuel' =>
      if ((3 <? Z.of_nat (length text))%Z
          && (fst (getTextSize (text ++ "...") FONT_HERSHEY_SIMPLEX
                     float_0_35 1)
              >? max_text_width)%Z)%bool
      then shrink_text fuel' max_text_width (drop_last text)
      else text
  end.

(** The text as it is passed to [cv2.putText]. *)
Definition fit_text (max_text_width : Z) (text : string) : string :=
  let text_size := getTextSize text FONT_HERSHEY_SIMPLEX float_0_35 1 in
  if (fst text_size >? max_text_width)%Z
  then shrink_text (length text) max_text_width text ++ "..."
  else text.

(** The [for text in texts] loop, with its [break]. *)
Fixpoint draw_lines (cell : Z) (x_offset y_offset : Z) (text_color : Color)
    (texts : list string) (text_y : Z) : list DrawCmd :=
  match texts with
  | [] => []
  | text :: rest =>
      if (text_y + line_height >? y_offset + cell - text_padding)%Z then []
      else
        PutText (fit_text (cell - (2 * text_padding)) text)
          (x_offset + text_padding, text_y)
          FONT_HERSHEY_SIMPLEX float_0_35 text_color 1 LINE_AA
        :: draw_lines cell x_offset y_offset text_color rest
             (text_y + line_height)
  end.

Definition cell_texts (cell_data : CellData) (r g b : Z) : list string :=
  [ "[" ++ str (row cell_data) ++ "," ++ str (col cell_data) ++ "]";
    "R:" ++ format_0f (PrimFloat.mul (avg_red cell_data) (Binary64.of_int 255));
    "G:"
    ++ format_0f (PrimFloat.mul (avg_green cell_data) (Binary64.of_int 255));
    "B:" ++ format_0f (PrimFloat.mul (avg_blue cell_data) (Binary64.of_int 255));
    "Br:" ++ format_2f (brightness cell_data);
    "Cn:" ++ format_2f (contrast cell_data);
    "D:(" ++ str r ++ "," ++ str g ++ "," ++ str b ++ ")" ].

(** *** One tile (the body of [for cell_data in cells_data]) *)

Definition tile_x (s : DataVisualizer) (grid_x_offset : Z)
    (cell_data : CellData) : Z :=
  grid_x_offset + padding
  + (col cell_data * (cell_size (sizes s) + padding)).

Definition tile_y (s : DataVisualizer) (grid_y : Z) (cell_data : CellData)
    : Z :=
  grid_y + padding + (row cell_data * (cell_size (sizes s) + padding)).

Definition draw_cell (s : DataVisualizer) (grid_x_offset : Z)
    (cell_data : CellData) : outcome (list DrawCmd) :=
  let x_offset := tile_x s grid_x_offset cell_data in
  match grid_y_offset (layout s) with
  | None => Raises (Known AttributeError)
  | Some grid_y =>
      let y_offset := tile_y s grid_y cell_data in
      let '(c0, c1, c2) := dominant_color cell_data in
      r <-- int_of_float (PrimFloat.mul c0 (Binary64.of_int 255)) ;;
      g <-- int_of_float (PrimFloat.mul c1 (Binary64.of_int 255)) ;;
      b <-- int_of_float (PrimFloat.mul c2 (Binary64.of_int 255)) ;;
      let cell := cell_size (sizes s) in
      let text_color : Color :=
        if PrimFloat.ltb float_0_5 (brightness cell_data)
        then (50, 50, 50) else (220, 220, 220) in
      Returns
        (Rectangle (x_offset, y_offset) (x_offset + cell, y_offset + cell)
           (b, g, r) (-1)
         :: Rectangle (x_offset, y_offset) (x_offset + cell, y_offset + cell)
              (100, 100, 100) 1
         :: draw_lines cell x_offset y_offset text_color
              (cell_texts cell_data r g b) (y_offset + 10))%list
  end.

Fixpoint draw_cells (s : DataVisualizer) (grid_x_offset : Z)
    (cells_data : list CellData) : outcome (list DrawCmd) :=
  match cells_data with
  | [] => Returns []
  | cell_data :: rest =>
      cmds <-- draw_cell s grid_x_offset cell_data ;;
      more <-- draw_cells s grid_x_offset rest ;;
      Returns (cmds ++ more)%list
  end.

(** *** [render] *)

(** The canvas after the camera step, and the drawing calls made on it by
    the grid step and the button step. *)
Definition render (s : DataVisualizer) (cells_data : list CellData)
    (camera_frame : option image) : outcome (image * list DrawCmd) :=
  canvas <-- of_result (render_camera s camera_frame) ;;
  grid <--
    (if show_grid_runtime s
     then
       let grid_x_offset :=
         floordiv (width (layout s) - grid_width (sizes s)) 2 in
       draw_cells s grid_x_offset cells_data
     else Returns []) ;;
  Returns (canvas, (grid ++ _draw_buttons s)%list).

(** *** [show] *)

(** How presenting the canvas went: [cv2.imshow] or
    [cv2.getWindowProperty] raised [cv2.error], or the window reported the
    visibility [v]. *)
Inductive presented : Type :=
| PresentFailed
| Visibility (v : float).

(** [show]: [render] runs outside the [try], so what it raises leaves
    [show]; inside the [try] a failure or a visibility below 1 sets
    [should_close]. *)
Definition show (s : DataVisualizer) (cells_data : list CellData)
    (camera_frame : option image) (p : presented) : outcome DataVisualizer :=
  frame <-- render s cells_data camera_frame ;;
  match p with
  | PresentFailed => Returns (set_should_close s)
  | Visibility v =>
      if PrimFloat.ltb v PrimFloat.one then Returns (set_should_close s)
      else Returns s
  end.

(** *** [show_loading_screen] *)

Definition loading_height : Z := 300.
Definition loading_width : Z := 500.

(** [dot_x] of the [i]-th dot. *)
Definition dot_x (i : Z) : Z := floordiv loading_width 2 - 30 + (i * 30).

(** The canvas and the calls drawn on it; presenting it is wrapped in
    [try ... except cv2.error: pass] and changes nothing. *)
Definition show_loading_screen (message : string)
    : outcome (image * list DrawCmd) :=
  canvas <-- of_result (np_filled loading_height loading_width 30) ;;
  let font := FONT_HERSHEY_SIMPLEX in
  let font_scale := float_0_8 in
  let thickness := 1 in
  let text_size := getTextSize message font font_scale thickness in
  let text_x := floordiv (loading_width - fst text_size) 2 in
  let text_y := floordiv (loading_height + snd text_size) 2 in
  let dots_y := text_y + 40 in
  Returns
    (canvas,
     PutText message (text_x, text_y) font font_scale (200, 200, 200)
       thickness LINE_AA
     :: map (fun i => Circle (dot_x i, dots_y) 5 (100, 100, 200) (-1))
          [0; 1; 2]).

End Text.

(** *** Reading the recorded calls *)

(** The inclusive rectangle a [cv2.rectangle] call covers. *)
Definition rectangle_bounds (c : DrawCmd) : option Bounds :=
  match c with
  | Rectangle (x1, y1) (x2, y2) _ _ => Some (x1, y1, x2, y2)
  | _ => None
  end.

Definition is_put_text (c : DrawCmd) : bool :=
  match c with
  | PutText _ _ _ _ _ _ _ => true
  | _ => false
  end.

(** The tile of a cell as a rectangle. *)
Definition tile_bounds (s : DataVisualizer) (grid_x_offset grid_y : Z)
    (cell_data : CellData) : Bounds :=
  (tile_x s grid_x_offset cell_data,
   tile_y s grid_y cell_data,
   tile_x s grid_x_offset cell_data + cell_size (sizes s),
   tile_y s grid_y cell_data + cell_size (sizes s)).

(** A line drawn by the loop: a [putText] at the left inset of the tile whose
    baseline leaves room for one line height above the bottom inset. *)
Definition line_in_tile (cell x_offset y_offset : Z) (c : DrawCmd) : Prop :=
  exists text text_y color,
    c = PutText text (x_offset + text_padding, text_y) FONT_HERSHEY_SIMPLEX
          float_0_35 color 1 LINE_AA
    /\ y_offset + 10 <= text_y
    /\ text_y + line_height <= y_offset + cell - text_padding.

(** The measured width of a text line of a tile. *)
Definition line_width (getTextSize : string -> Z -> float -> Z -> Z * Z)
    (text : string) : Z :=
  fst (getTextSize text FONT_HERSHEY_SIMPLEX float_0_35 1).





(** How many text lines the loop of a tile draws out of [n] candidates. *)
Definition lines_drawn (cell : Z) (n : nat) : nat :=
  Nat.min n (Z.to_nat ((cell - 15) / 14)).

End Draw.

(** * Properties *)

(** Equality of tuples of integers, component by component. *)
Ltac tuple_eq :=
  repeat match goal with
         | |- (_, _) = (_, _) => apply f_equal2
         end;
  try reflexivity; try lia.

(** Reads a field of a layout record. *)
Ltac layout_fields :=
  cbn [button_bar_y camera_y_offset grid_y_offset height width
       close_button_bounds toggle_camera_button_bounds
       toggle_grid_button_bounds] in *.

(** Reads a field of an object built by one of the transitions. *)
Ltac fields :=
  cbn [grid_config should_close show_camera_runtime show_grid_runtime sizes
       layout mouse_x mouse_y toggle_camera toggle_grid set_should_close
       set_mouse show_result set_camera_y_offset set_grid_y_offset] in *.

(** ** Hit test *)

Lemma is_point_in_bounds_iff (x y x1 y1 x2 y2 : Z) :
  _is_point_in_bounds x y (x1, y1, x2, y2) = true
  <-> (x1 <= x <= x2 /\ y1 <= y <= y2).
Proof.
  unfold _is_point_in_bounds.
  rewrite !andb_true_iff, !Z.leb_le. tauto.
Qed.

Lemma is_point_in_bounds_false_iff (x y x1 y1 x2 y2 : Z) :
  _is_point_in_bounds x y (x1, y1, x2, y2) = false
  <-> (x < x1 \/ x2 < x \/ y < y1 \/ y2 < y).
Proof.
  rewrite <- not_true_iff_false, is_point_in_bounds_iff. lia.
Qed.

(** C8. For a rectangle with [x1 <= x2] and [y1 <= y2] the hit test is true
    at every point with [x1 <= x <= x2] and [y1 <= y <= y2], so at the four
    corners and along the four edges, and false one pixel outside each edge:
    at [x1 - 1], [x2 + 1], [y1 - 1] and [y2 + 1], whatever the other
    coordinate. *)
Theorem hit_test_inclusive (x1 y1 x2 y2 : Z) :
  x1 <= x2 -> y1 <= y2 ->
  (forall x y, x1 <= x <= x2 -> y1 <= y <= y2 ->
     _is_point_in_bounds x y (x1, y1, x2, y2) = true)
  /\ _is_point_in_bounds x1 y1 (x1, y1, x2, y2) = true
  /\ _is_point_in_bounds x2 y1 (x1, y1, x2, y2) = true
  /\ _is_point_in_bounds x1 y2 (x1, y1, x2, y2) = true
  /\ _is_point_in_bounds x2 y2 (x1, y1, x2, y2) = true
  /\ (forall y, _is_point_in_bounds (x1 - 1) y (x1, y1, x2, y2) = false)
  /\ (forall y, _is_point_in_bounds (x2 + 1) y (x1, y1, x2, y2) = false)
  /\ (forall x, _is_point_in_bounds x (y1 - 1) (x1, y1, x2, y2) = false)
  /\ (forall x, _is_point_in_bounds x (y2 + 1) (x1, y1, x2, y2) = false).
Proof.
  intros Hx Hy.
  repeat split; intros;
    first [ apply is_point_in_bounds_iff; lia
          | apply is_point_in_bounds_false_iff; lia ].
Qed.

Lemma hit_test_inclusive_witness :
  3 <= 7 /\ 2 <= 5
  /\ _is_point_in_bounds 3 5 (3, 2, 7, 5) = true
  /\ _is_point_in_bounds 8 4 (3, 2, 7, 5) = false.
Proof.
  assert (Hx : 3 <= 7) by lia.
  assert (Hy : 2 <= 5) by lia.
  pose proof (hit_test_inclusive 3 2 7 5 Hx Hy) as H.
  split; [exact Hx | split; [exact Hy | split]].
  - apply H.
  - apply (proj1 (proj2 (proj2 (proj2 (proj2 (proj2 (proj2 H))))))).
Defined.

(** ** Button row *)

Lemma recalc_button_bounds (sz : Sizes) (c g : bool) (pc pg : option Z) :
  let l := _recalculate_layout sz c g pc pg in
  let b := (width l - 440) / 2 in
  close_button_bounds l = (b, 10, b + 140, 45)
  /\ toggle_camera_button_bounds l = (b + 150, 10, b + 290, 45)
  /\ toggle_grid_button_bounds l = (b + 300, 10, b + 440, 45).
Proof.
  cbv beta zeta.
  unfold _recalculate_layout, floordiv, padding, button_height, button_width,
    button_spacing.
  cbn [close_button_bounds toggle_camera_button_bounds
       toggle_grid_button_bounds width].
  replace (140 * 3 + 10 * 2) with 440 by reflexivity.
  set (b := (_ - 440) / 2). clearbody b.
  repeat split; tuple_eq.
Qed.

(** C9. Whatever the two visibility flags, the layout just recomputed has
    the Close, ToggleCamera and ToggleGrid bounds pairwise disjoint under the
    hit test, each [button_width] wide, on the same row, in that order from
    left to right, and the row of three is centred in the canvas: it starts at
    [(width - row width) // 2], so the margin on its right equals the margin
    on its left, or exceeds it by the one pixel the floor division leaves. *)
Theorem button_row_layout (sz : Sizes) (c g : bool) (pc pg : option Z) :
  let l := _recalculate_layout sz c g pc pg in
  let cb := close_button_bounds l in
  let tc := toggle_camera_button_bounds l in
  let tg := toggle_grid_button_bounds l in
  let row_width := 3 * button_width + 2 * button_spacing in
  (bounds_disjoint cb tc /\ bounds_disjoint cb tg /\ bounds_disjoint tc tg)
  /\ (x2_of cb - x1_of cb = button_width
      /\ x2_of tc - x1_of tc = button_width
      /\ x2_of tg - x1_of tg = button_width)
  /\ (y1_of cb = button_bar_y l /\ y1_of tc = button_bar_y l
      /\ y1_of tg = button_bar_y l
      /\ y2_of cb = button_bar_y l + button_height
      /\ y2_of tc = button_bar_y l + button_height
      /\ y2_of tg = button_bar_y l + button_height)
  /\ (x1_of cb < x2_of cb /\ x2_of cb < x1_of tc
      /\ x1_of tc < x2_of tc /\ x2_of tc < x1_of tg
      /\ x1_of tg < x2_of tg)
  /\ (x1_of cb = (width l - row_width) / 2
      /\ x2_of tg - x1_of cb = row_width
      /\ x1_of cb <= width l - x2_of tg <= x1_of cb + 1).
Proof.
  cbv zeta.
  destruct (recalc_button_bounds sz c g pc pg) as (Hc & Htc & Htg).
  rewrite Hc, Htc, Htg.
  set (w := width (_recalculate_layout sz c g pc pg)).
  assert (Hbar : button_bar_y (_recalculate_layout sz c g pc pg) = 10)
    by reflexivity.
  rewrite Hbar.
  unfold bounds_disjoint, x1_of, x2_of, y1_of, y2_of, button_width,
    button_spacing, button_height.
  replace (3 * 140 + 2 * 10) with 440 by reflexivity.
  pose proof (Z.div_mod (w - 440) 2 ltac:(lia)) as Hdiv.
  pose proof (Z.mod_pos_bound (w - 440) 2 ltac:(lia)) as Hmod.
  repeat split; intros; try lia;
    match goal with
    | H : _is_point_in_bounds _ _ _ = true |- _ =>
        apply is_point_in_bounds_iff in H;
        apply is_point_in_bounds_false_iff; lia
    end.
Qed.

(** C10. With both blocks hidden the content width is the fallback 400 and
    the canvas is 420 wide, less than the 440 of the button row
    (3 * 140 + 2 * 10): the Close button starts at x = -10 and the ToggleGrid
    button ends at x = 430, beyond the last column 419 of the canvas. *)
Theorem hidden_blocks_button_row_overflows (sz : Sizes) (pc pg : option Z) :
  let l := _recalculate_layout sz false false pc pg in
  width l = 420
  /\ 3 * button_width + 2 * button_spacing = 440
  /\ width l < 3 * button_width + 2 * button_spacing
  /\ x1_of (close_button_bounds l) = -10
  /\ x2_of (toggle_grid_button_bounds l) = 430
  /\ x2_of (toggle_grid_button_bounds l) > width l - 1.
Proof.
  cbv zeta. repeat split.
Qed.

(** ** Initial sizing *)

Lemma total_desired_height_eq (cfg : GridConfig) :
  total_desired_height cfg = 565 + 160 * rows cfg.
Proof.
  unfold total_desired_height, desired_grid_height, desired_cell_size,
    desired_camera_height, padding, button_height. lia.
Qed.

(** [int] truncates toward zero, which is the floor of a value that is not
    negative. *)
Lemma int_is_floor (q : Q) : (0 <= q)%Q -> int q = Qfloor q.
Proof.
  destruct q as [n d]. unfold Qle, int, Qfloor. cbn. intros H.
  apply Z.quot_div_nonneg; lia.
Qed.

Lemma int_nonneg (q : Q) : (0 <= q)%Q -> 0 <= int q.
Proof.
  destruct q as [n d]. unfold Qle, int. cbn. intros H.
  apply Z.quot_pos; lia.
Qed.

Lemma scale_factor_cases (cfg : GridConfig) :
  (max_height < total_desired_height cfg
   /\ scale_factor cfg
      = Ok (inject_Z max_height / inject_Z (total_desired_height cfg))%Q)
  \/ (total_desired_height cfg <= max_height /\ scale_factor cfg = Ok 1%Q).
Proof.
  unfold scale_factor, truediv.
  destruct (Z.gtb_spec (total_desired_height cfg) max_height) as [Hgt | Hle].
  - left. split; [exact Hgt |].
    destruct (Z.eqb_spec (total_desired_height cfg) 0) as [H0 | _].
    + unfold max_height in Hgt. lia.
    + reflexivity.
  - right. split; [exact Hle | reflexivity].
Qed.

(** The scale factor is always defined and lies in (0, 1]. *)
Lemma scale_factor_range (cfg : GridConfig) :
  exists sf, scale_factor cfg = Ok sf /\ (0 < sf)%Q /\ (sf <= 1)%Q.
Proof.
  destruct (scale_factor_cases cfg) as [[Hgt ->] | [_ ->]].
  - eexists. split; [reflexivity |].
    unfold max_height in *.
    destruct (total_desired_height cfg) as [| p | p] eqn:E; try lia.
    unfold Qlt, Qle, Qdiv, Qmult, Qinv, inject_Z. cbn. lia.
  - exists 1%Q. split; [reflexivity |]. unfold Qlt, Qle. cbn. lia.
Qed.

Lemma scaled_nonneg (k : Z) (sf : Q) :
  0 <= k -> (0 < sf)%Q -> (0 <= inject_Z k * sf)%Q.
Proof.
  intros Hk Hsf. destruct sf as [n d].
  unfold Qlt, Qle, Qmult, inject_Z in *. cbn in *. nia.
Qed.

Lemma calculate_responsive_sizes_total (cfg : GridConfig) :
  exists sf sz,
    scale_factor cfg = Ok sf
    /\ (0 < sf)%Q /\ (sf <= 1)%Q
    /\ _calculate_responsive_sizes cfg = Ok sz
    /\ cell_size sz = int (inject_Z desired_cell_size * sf)
    /\ camera_width sz = int (inject_Z desired_camera_width * sf)
    /\ camera_height sz = int (inject_Z desired_camera_height * sf)
    /\ grid_width sz = cell_size sz * cols cfg + padding * (cols cfg + 1)
    /\ grid_height sz = cell_size sz * rows cfg + padding * (rows cfg + 1).
Proof.
  destruct (scale_factor_range cfg) as (sf & Hsf & Hpos & Hle).
  exists sf. eexists.
  unfold _calculate_responsive_sizes. rewrite Hsf. cbn [bind].
  repeat split; assumption.
Qed.

Lemma sizes_nonneg (cfg : GridConfig) (sz : Sizes) :
  _calculate_responsive_sizes cfg = Ok sz ->
  0 <= cell_size sz /\ 0 <= camera_width sz /\ 0 <= camera_height sz.
Proof.
  intros H.
  destruct (calculate_responsive_sizes_total cfg)
    as (sf & sz' & _ & Hpos & _ & Hsz & Hc & Hw & Hh & _).
  rewrite Hsz in H. injection H as <-.
  rewrite Hc, Hw, Hh.
  repeat split; apply int_nonneg, scaled_nonneg; try assumption;
    unfold desired_cell_size, desired_camera_width, desired_camera_height;
    lia.
Qed.

(** The exact quotient used for [scale_factor] loses nothing against the
    binary64 arithmetic of the source: for every number of rows from 0 to
    3600 the three sizes computed in binary64 are the stored ones.  From 3597
    rows on all three are 0. *)
Lemma binary64_sizes_agree :
  forallb
    (fun r =>
       let cfg := mkGridConfig (Z.of_nat r) 1 in
       match _calculate_responsive_sizes cfg with
       | Ok sz => Binary64.agrees cfg sz
       | Raise _ => false
       end)
    (seq 0 3601) = true.
Proof.
  vm_compute. reflexivity.
Qed.

(** C4. The height compared with [max_height] = 900 is the expanded layout
    of the specification.  When it exceeds 900, [scale_factor] is
    900 / total and the stored [cell_size] and [camera_width] are the floors
    of 150 and 640 times it (and [camera_height] that of 480 times it);
    otherwise [scale_factor] is 1 and the stored sizes are 150, 640
    and 480. *)
Theorem responsive_sizes_scaling (cfg : GridConfig) :
  let total := total_desired_height cfg in
  total = spec_expanded_height cfg
  /\ (max_height < total ->
      exists sf sz,
        scale_factor cfg = Ok sf
        /\ sf = (inject_Z 900 / inject_Z total)%Q
        /\ _calculate_responsive_sizes cfg = Ok sz
        /\ cell_size sz = Qfloor (inject_Z 150 * sf)
        /\ camera_width sz = Qfloor (inject_Z 640 * sf)
        /\ camera_height sz = Qfloor (inject_Z 480 * sf))
  /\ (total <= max_height ->
      scale_factor cfg = Ok 1%Q
      /\ exists sz,
          _calculate_responsive_sizes cfg = Ok sz
          /\ cell_size sz = desired_cell_size
          /\ camera_width sz = desired_camera_width
          /\ camera_height sz = desired_camera_height).
Proof.
  cbv zeta. split; [| split].
  - unfold total_desired_height, spec_expanded_height. lia.
  - intros Hgt.
    destruct (calculate_responsive_sizes_total cfg)
      as (sf & sz & Hsf & Hpos & _ & Hsz & Hc & Hw & Hh & _).
    exists sf, sz.
    destruct (scale_factor_cases cfg) as [[_ Hsf'] | [Hle _]]; [| lia].
    assert (Hval : sf = (inject_Z 900 / inject_Z (total_desired_height cfg))%Q)
      by (rewrite Hsf' in Hsf; injection Hsf as Hsf; symmetry; exact Hsf).
    repeat split; try assumption.
    + rewrite Hc. apply int_is_floor, scaled_nonneg; [cbv; congruence | exact Hpos].
    + rewrite Hw. apply int_is_floor, scaled_nonneg; [cbv; congruence | exact Hpos].
    + rewrite Hh. apply int_is_floor, scaled_nonneg; [cbv; congruence | exact Hpos].
  - intros Hle.
    destruct (scale_factor_cases cfg) as [[Hgt _] | [_ Hsf]]; [lia |].
    split; [exact Hsf |].
    unfold _calculate_responsive_sizes. rewrite Hsf. cbn [bind].
    eexists. split; [reflexivity |]. repeat split.
Qed.

Lemma responsive_sizes_scaling_witness :
  (max_height < total_desired_height (mkGridConfig 3 3)
   /\ exists sz,
       _calculate_responsive_sizes (mkGridConfig 3 3) = Ok sz
       /\ cell_size sz = Qfloor (inject_Z 150 * (900 # 1045))
       /\ camera_width sz = Qfloor (inject_Z 640 * (900 # 1045)))
  /\ (total_desired_height (mkGridConfig 2 3) <= max_height
      /\ scale_factor (mkGridConfig 2 3) = Ok 1%Q).
Proof.
  split.
  - assert (H : max_height < total_desired_height (mkGridConfig 3 3))
      by (vm_compute; reflexivity).
    split; [exact H |].
    destruct (proj1 (proj2 (responsive_sizes_scaling (mkGridConfig 3 3))) H)
      as (sf & sz & _ & Hsf & Hsz & Hc & Hw & _).
    exists sz. subst sf. repeat split; assumption.
  - assert (H : total_desired_height (mkGridConfig 2 3) <= max_height)
      by (vm_compute; discriminate).
    split; [exact H |].
    exact (proj1 (proj2 (proj2 (responsive_sizes_scaling (mkGridConfig 2 3))) H)).
Defined.

(** ** Construction *)

Lemma init_total (cfg : GridConfig) (show_camera : bool) :
  exists sz,
    _calculate_responsive_sizes cfg = Ok sz
    /\ __init__ cfg show_camera =
       Ok {| grid_config := cfg;
             should_close := false;
             show_camera_runtime := show_camera;
             show_grid_runtime := true;
             sizes := sz;
             layout := _recalculate_layout sz show_camera true None None;
             mouse_x := None;
             mouse_y := None |}.
Proof.
  destruct (calculate_responsive_sizes_total cfg)
    as (sf & sz & _ & _ & _ & Hsz & _).
  exists sz. split; [exact Hsz |].
  unfold __init__. rewrite Hsz. reflexivity.
Qed.

(** C2, as the code has it. Construction validates nothing: for every
    [GridConfig], also with [rows <= 0] or [cols <= 0], initial sizing and the
    first layout complete without raising and the object is in its initial
    state, holding the configuration it was given. *)
Theorem construction_never_raises (cfg : GridConfig) (show_camera : bool) :
  exists v,
    __init__ cfg show_camera = Ok v
    /\ grid_config v = cfg
    /\ should_close v = false
    /\ show_camera_runtime v = show_camera
    /\ show_grid_runtime v = true
    /\ _calculate_responsive_sizes cfg = Ok (sizes v).
Proof.
  destruct (init_total cfg show_camera) as (sz & Hsz & Hinit).
  eexists. split; [exact Hinit |]. cbn. repeat split. exact Hsz.
Qed.

(** C2, counterexample: a configuration with no rows and a negative number
    of columns is accepted by the constructor. *)
Lemma construction_accepts_malformed_config :
  (rows (mkGridConfig 0 (-1)) <= 0 \/ cols (mkGridConfig 0 (-1)) <= 0)
  /\ is_ok (__init__ (mkGridConfig 0 (-1)) true) = true.
Proof.
  split; [left; cbn; lia | vm_compute; reflexivity].
Qed.

(** ** Reachable states *)

Lemma recalculate_layout_idem (sz : Sizes) (c g : bool) (pc pg : option Z) :
  let l := _recalculate_layout sz c g pc pg in
  _recalculate_layout sz c g (camera_y_offset l) (grid_y_offset l) = l.
Proof.
  cbv zeta. unfold _recalculate_layout. cbn [camera_y_offset grid_y_offset].
  destruct c, g; reflexivity.
Qed.

Lemma deliver_cases (e : PointerEvent) (s : DataVisualizer) :
  deliver e s = set_mouse (ev_x e) (ev_y e) s
  \/ deliver e s = set_should_close s
  \/ deliver e s = toggle_camera s
  \/ deliver e s = toggle_grid s
  \/ deliver e s = s.
Proof.
  unfold deliver, _mouse_callback.
  destruct (ev_code e =? EVENT_MOUSEMOVE); [tauto |].
  destruct (ev_code e =? EVENT_LBUTTONDOWN); [| tauto].
  destruct (_is_point_in_bounds _ _ (close_button_bounds _)); [tauto |].
  destruct (_is_point_in_bounds _ _ (toggle_camera_button_bounds _));
    [tauto |].
  destruct (_is_point_in_bounds _ _ (toggle_grid_button_bounds _)); tauto.
Qed.

(** What every reachable state keeps: the configuration, the sizes computed
    once at construction, and a layout in step with the flags. *)
Lemma reachable_invariant (cfg : GridConfig) (sc : bool) (s : DataVisualizer) :
  reachable cfg sc s ->
  grid_config s = cfg
  /\ _calculate_responsive_sizes cfg = Ok (sizes s)
  /\ layout_in_sync s.
Proof.
  induction 1 as [v Hinit | s e Hr IH | s ok Hr IH].
  - destruct (init_total cfg sc) as (sz & Hsz & Hv).
    rewrite Hv in Hinit. injection Hinit as <-.
    unfold layout_in_sync. fields.
    repeat split; try assumption.
    symmetry. apply recalculate_layout_idem.
  - destruct IH as (Hcfg & Hsz & Hsync).
    destruct (deliver_cases e s) as [-> | [-> | [-> | [-> | ->]]]];
      unfold layout_in_sync; fields;
      repeat split; try assumption;
      symmetry; apply recalculate_layout_idem.
  - destruct IH as (Hcfg & Hsz & Hsync).
    destruct ok; unfold layout_in_sync; fields; repeat split; assumption.
Qed.

(** C5. For [rows = R >= 1] and [cols = C >= 1] the constructor returns, and
    in the object it returns and in every state reached from it the stored
    grid dimensions are [cell_size * C + padding * (C + 1)] and
    [cell_size * R + padding * (R + 1)], with the stored, possibly scaled,
    [cell_size] and [padding = 10]. *)
Theorem grid_dimensions (R C : Z) (show_camera : bool) :
  1 <= R -> 1 <= C ->
  padding = 10
  /\ (exists v, __init__ (mkGridConfig R C) show_camera = Ok v)
  /\ forall s,
      reachable (mkGridConfig R C) show_camera s ->
      grid_width (sizes s) = cell_size (sizes s) * C + padding * (C + 1)
      /\ grid_height (sizes s) = cell_size (sizes s) * R + padding * (R + 1).
Proof.
  intros _ _. split; [reflexivity | split].
  - destruct (init_total (mkGridConfig R C) show_camera) as (sz & _ & H).
    eexists. exact H.
  - intros s Hr.
    destruct (reachable_invariant _ _ _ Hr) as (_ & Hsz & _).
    destruct (calculate_responsive_sizes_total (mkGridConfig R C))
      as (sf & sz & _ & _ & _ & Hsz' & _ & _ & _ & Hgw & Hgh).
    rewrite Hsz' in Hsz. injection Hsz as ->.
    split; assumption.
Qed.

Lemma grid_dimensions_witness :
  1 <= 4 /\ 1 <= 3
  /\ exists v,
      __init__ (mkGridConfig 4 3) true = Ok v
      /\ cell_size (sizes v) = 112
      /\ grid_width (sizes v) = cell_size (sizes v) * 3 + padding * (3 + 1)
      /\ grid_height (sizes v) = cell_size (sizes v) * 4 + padding * (4 + 1).
Proof.
  assert (HR : 1 <= 4) by lia.
  assert (HC : 1 <= 3) by lia.
  split; [exact HR | split; [exact HC |]].
  destruct (grid_dimensions 4 3 true HR HC) as (_ & _ & H).
  eexists. split; [vm_compute; reflexivity |].
  split; [vm_compute; reflexivity |].
  apply H. apply reach_init. vm_compute. reflexivity.
Defined.

(** ** Canvas height *)

(** C7. For a configuration whose [rows] is not negative (every valid
    [GridConfig] has [rows >= 1]) the canvas height stored in any reachable
    state, and the one recomputed from it for any combination of the two
    visibility flags, is at least [button_height + 2 * padding]. *)
Theorem canvas_height_lower_bound (cfg : GridConfig) (sc : bool)
    (s : DataVisualizer) (c g : bool) :
  0 <= rows cfg ->
  reachable cfg sc s ->
  button_height + 2 * padding <= height (layout s)
  /\ button_height + 2 * padding
     <= height (_recalculate_layout (sizes s) c g
                  (camera_y_offset (layout s)) (grid_y_offset (layout s))).
Proof.
  intros Hrows Hr.
  destruct (reachable_invariant _ _ _ Hr) as (_ & Hsz & Hsync).
  destruct (sizes_nonneg _ _ Hsz) as (Hcell & _ & Hcam).
  destruct (calculate_responsive_sizes_total cfg)
    as (sf & sz & _ & _ & _ & Hsz' & _ & _ & _ & _ & Hgh).
  rewrite Hsz' in Hsz. injection Hsz as Hsz. subst sz.
  assert (Hgrid : 0 <= grid_height (sizes s) + padding)
    by (rewrite Hgh; unfold padding; nia).
  assert (Hall : forall c' g' pc pg,
             button_height + 2 * padding
             <= height (_recalculate_layout (sizes s) c' g' pc pg)).
  { intros c' g' pc pg. unfold _recalculate_layout. cbn [height].
    unfold padding, button_height in *. destruct c', g'; lia. }
  split; [rewrite Hsync |]; apply Hall.
Qed.

Lemma canvas_height_lower_bound_witness :
  0 <= rows (mkGridConfig 2 3)
  /\ exists v,
      __init__ (mkGridConfig 2 3) true = Ok v
      /\ height (layout v) = 885
      /\ button_height + 2 * padding
         <= height (_recalculate_layout (sizes v) false false
                      (camera_y_offset (layout v)) (grid_y_offset (layout v))).
Proof.
  assert (H0 : 0 <= rows (mkGridConfig 2 3)) by (cbn; lia).
  split; [exact H0 |].
  eexists. split; [vm_compute; reflexivity |].
  split; [vm_compute; reflexivity |].
  refine (proj2 (canvas_height_lower_bound (mkGridConfig 2 3) true _ false
                   false H0 (reach_init _ _ _ _))).
  vm_compute. reflexivity.
Defined.

(** ** The closing state *)

Lemma deliver_keeps_should_close (e : PointerEvent) (s : DataVisualizer) :
  should_close s = true -> should_close (deliver e s) = true.
Proof.
  intros H.
  destruct (deliver_cases e s) as [-> | [-> | [-> | [-> | ->]]]];
    fields; auto.
Qed.

Lemma deliver_sparing_toggles (e : PointerEvent) (s : DataVisualizer) :
  hits_toggle s e = false ->
  show_camera_runtime (deliver e s) = show_camera_runtime s
  /\ show_grid_runtime (deliver e s) = show_grid_runtime s
  /\ sizes (deliver e s) = sizes s
  /\ layout (deliver e s) = layout s.
Proof.
  unfold hits_toggle, deliver, _mouse_callback.
  destruct (ev_code e =? EVENT_MOUSEMOVE); [fields; auto |].
  destruct (ev_code e =? EVENT_LBUTTONDOWN); [| auto].
  destruct (_is_point_in_bounds _ _ (close_button_bounds _));
    [fields; auto |].
  destruct (_is_point_in_bounds _ _ (toggle_camera_button_bounds _));
    [discriminate |].
  destruct (_is_point_in_bounds _ _ (toggle_grid_button_bounds _));
    [discriminate | auto].
Qed.

(** C1, as the code has it. Once [should_close] is true it stays true under
    every later sequence of pointer events.  The callback does not look at
    [should_close]: the two flags and the layout keep their values along a
    sequence of pointer moves and of pointer-downs that land on Close or
    outside both toggle buttons, while a pointer-down on a toggle button
    flips its flag as it does before closing. *)
Theorem closing_is_absorbing (s : DataVisualizer) (es : list PointerEvent) :
  should_close s = true ->
  check_should_close (deliver_all es s) = true
  /\ (forallb (fun e => negb (hits_toggle s e)) es = true ->
      show_camera_runtime (deliver_all es s) = show_camera_runtime s
      /\ show_grid_runtime (deliver_all es s) = show_grid_runtime s
      /\ layout (deliver_all es s) = layout s).
Proof.
  unfold check_should_close, deliver_all.
  revert s. induction es as [| e es IH]; intros s Hclose.
  - cbn. auto.
  - cbn [fold_left forallb].
    destruct (IH (deliver e s) (deliver_keeps_should_close e s Hclose))
      as (Hc & Hrest).
    split; [exact Hc |].
    intros Hall. apply andb_true_iff in Hall. destruct Hall as (He & Hes).
    apply negb_true_iff in He.
    destruct (deliver_sparing_toggles e s He) as (Hcam & Hgrid & _ & Hlay).
    assert (Hsame : forallb (fun e0 => negb (hits_toggle (deliver e s) e0)) es
                    = true).
    { rewrite forallb_forall in Hes |- *. intros e0 Hin.
      specialize (Hes e0 Hin). unfold hits_toggle in *.
      rewrite Hlay. exact Hes. }
    destruct (Hrest Hsame) as (H1 & H2 & H3).
    rewrite H1, H2, H3. auto.
Qed.

Lemma closing_is_absorbing_witness :
  exists s,
    session (mkGridConfig 2 3) true [pointerDown 120 20] = Ok s
    /\ should_close s = true
    /\ check_should_close
         (deliver_all [pointerMove 300 20; pointerDown 120 20; pointerDown 5 5]
            s) = true
    /\ show_camera_runtime
         (deliver_all [pointerMove 300 20; pointerDown 120 20; pointerDown 5 5]
            s) = show_camera_runtime s.
Proof.
  eexists. split; [vm_compute; reflexivity |].
  match goal with
  | |- should_close ?s = true /\ _ =>
      assert (Hc : should_close s = true) by (vm_compute; reflexivity);
      destruct (closing_is_absorbing s
                  [pointerMove 300 20; pointerDown 120 20; pointerDown 5 5] Hc)
        as (H1 & H2)
  end.
  split; [exact Hc | split; [exact H1 |]].
  apply H2. vm_compute. reflexivity.
Defined.

(** C1, counterexample: with rows = 2 and cols = 3 the Close button spans
    x in [110, 250] and ToggleCamera x in [260, 400], both y in [10, 45].
    A pointer-down at (120, 20) closes; a later pointer-down at (270, 20)
    still hides the camera. *)
Lemma closing_does_not_absorb_toggles :
  (exists s,
      session (mkGridConfig 2 3) true [pointerDown 120 20] = Ok s
      /\ check_should_close s = true
      /\ show_camera_runtime s = true
      /\ close_button_bounds (layout s) = (110, 10, 250, 45)
      /\ toggle_camera_button_bounds (layout s) = (260, 10, 400, 45))
  /\ (exists s',
         session (mkGridConfig 2 3) true
           [pointerDown 120 20; pointerDown 270 20] = Ok s'
         /\ check_should_close s' = true
         /\ show_camera_runtime s' = false).
Proof.
  split; eexists; (split; [vm_compute; reflexivity |]);
    vm_compute; repeat split.
Qed.

(** ** Toggling twice *)

Lemma sync_button_bounds (s : DataVisualizer) :
  layout_in_sync s ->
  let b := (width (layout s) - 440) / 2 in
  close_button_bounds (layout s) = (b, 10, b + 140, 45)
  /\ toggle_camera_button_bounds (layout s) = (b + 150, 10, b + 290, 45)
  /\ toggle_grid_button_bounds (layout s) = (b + 300, 10, b + 440, 45).
Proof.
  intros Hsync. rewrite Hsync. apply recalc_button_bounds.
Qed.

Lemma click_toggle_camera (s : DataVisualizer) (x y : Z) :
  layout_in_sync s ->
  _is_point_in_bounds x y (toggle_camera_button_bounds (layout s)) = true ->
  deliver (pointerDown x y) s = toggle_camera s.
Proof.
  intros Hsync Hin.
  destruct (sync_button_bounds s Hsync) as (Hc & Htc & _).
  unfold deliver, pointerDown, _mouse_callback.
  cbn [ev_code ev_x ev_y ev_flags].
  replace (EVENT_LBUTTONDOWN =? EVENT_MOUSEMOVE) with false by reflexivity.
  replace (EVENT_LBUTTONDOWN =? EVENT_LBUTTONDOWN) with true by reflexivity.
  rewrite Hin. rewrite Htc in Hin. rewrite Hc.
  apply is_point_in_bounds_iff in Hin.
  replace (_is_point_in_bounds x y _) with false; [reflexivity |].
  symmetry. apply is_point_in_bounds_false_iff. lia.
Qed.

Lemma click_toggle_grid (s : DataVisualizer) (x y : Z) :
  layout_in_sync s ->
  _is_point_in_bounds x y (toggle_grid_button_bounds (layout s)) = true ->
  deliver (pointerDown x y) s = toggle_grid s.
Proof.
  intros Hsync Hin.
  destruct (sync_button_bounds s Hsync) as (Hc & Htc & Htg).
  unfold deliver, pointerDown, _mouse_callback.
  cbn [ev_code ev_x ev_y ev_flags].
  replace (EVENT_LBUTTONDOWN =? EVENT_MOUSEMOVE) with false by reflexivity.
  replace (EVENT_LBUTTONDOWN =? EVENT_LBUTTONDOWN) with true by reflexivity.
  rewrite Hin. rewrite Htg in Hin. rewrite Hc, Htc.
  apply is_point_in_bounds_iff in Hin.
  replace (_is_point_in_bounds x y (_, 10, _ + 140, 45)) with false.
  - replace (_is_point_in_bounds x y _) with false; [reflexivity |].
    symmetry. apply is_point_in_bounds_false_iff. lia.
  - symmetry. apply is_point_in_bounds_false_iff. lia.
Qed.

Lemma toggle_camera_in_sync (s : DataVisualizer) :
  layout_in_sync (toggle_camera s).
Proof.
  unfold layout_in_sync. fields. symmetry. apply recalculate_layout_idem.
Qed.

Lemma toggle_grid_in_sync (s : DataVisualizer) :
  layout_in_sync (toggle_grid s).
Proof.
  unfold layout_in_sync. fields. symmetry. apply recalculate_layout_idem.
Qed.

Lemma recalculate_camera_round_trip (sz : Sizes) (c g : bool)
    (pc pg : option Z) :
  let l := _recalculate_layout sz c g pc pg in
  let l1 :=
    _recalculate_layout sz (negb c) g (camera_y_offset l) (grid_y_offset l) in
  _recalculate_layout sz c g (camera_y_offset l1) (grid_y_offset l1)
  = {| button_bar_y := button_bar_y l;
       camera_y_offset := Some (padding + (button_height + padding));
       grid_y_offset := grid_y_offset l;
       height := height l;
       width := width l;
       close_button_bounds := close_button_bounds l;
       toggle_camera_button_bounds := toggle_camera_button_bounds l;
       toggle_grid_button_bounds := toggle_grid_button_bounds l |}.
Proof.
  destruct c, g; reflexivity.
Qed.

Lemma recalculate_grid_round_trip (sz : Sizes) (c g : bool)
    (pc pg : option Z) :
  let l := _recalculate_layout sz c g pc pg in
  let l1 :=
    _recalculate_layout sz c (negb g) (camera_y_offset l) (grid_y_offset l) in
  _recalculate_layout sz c g (camera_y_offset l1) (grid_y_offset l1)
  = {| button_bar_y := button_bar_y l;
       camera_y_offset := camera_y_offset l;
       grid_y_offset := Some (grid_top sz c);
       height := height l;
       width := width l;
       close_button_bounds := close_button_bounds l;
       toggle_camera_button_bounds := toggle_camera_button_bounds l;
       toggle_grid_button_bounds := toggle_grid_button_bounds l |}.
Proof.
  destruct c, g; reflexivity.
Qed.

Lemma toggle_camera_twice (s : DataVisualizer) :
  layout_in_sync s ->
  toggle_camera (toggle_camera s)
  = set_camera_y_offset (Some (padding + (button_height + padding))) s.
Proof.
  destruct s as [cfg cl c g sz l mx my].
  unfold layout_in_sync, toggle_camera, set_camera_y_offset. fields.
  intros Hsync. rewrite negb_involutive. f_equal.
  rewrite Hsync.
  apply recalculate_camera_round_trip.
Qed.

Lemma toggle_grid_twice (s : DataVisualizer) :
  layout_in_sync s ->
  toggle_grid (toggle_grid s)
  = set_grid_y_offset
      (Some (grid_top (sizes s) (show_camera_runtime s))) s.
Proof.
  destruct s as [cfg cl c g sz l mx my].
  unfold layout_in_sync, toggle_grid, set_grid_y_offset. fields.
  intros Hsync. rewrite negb_involutive. f_equal.
  rewrite Hsync.
  apply recalculate_grid_round_trip.
Qed.

(** Replacing the offset of a shown block by the value the layout gives it
    changes nothing. *)
Lemma set_camera_y_offset_shown (s : DataVisualizer) :
  layout_in_sync s ->
  show_camera_runtime s = true ->
  set_camera_y_offset (Some (padding + (button_height + padding))) s = s.
Proof.
  destruct s as [cfg cl c g sz l mx my].
  unfold layout_in_sync, set_camera_y_offset. fields.
  intros Hsync ->. f_equal.
  rewrite Hsync. destruct g; reflexivity.
Qed.

Lemma set_grid_y_offset_shown (s : DataVisualizer) :
  layout_in_sync s ->
  show_grid_runtime s = true ->
  set_grid_y_offset (Some (grid_top (sizes s) (show_camera_runtime s))) s = s.
Proof.
  destruct s as [cfg cl c g sz l mx my].
  unfold layout_in_sync, set_grid_y_offset. fields.
  intros Hsync ->. f_equal.
  rewrite Hsync. destruct c; reflexivity.
Qed.

Lemma visible_geometry_set_camera (o : option Z) (s : DataVisualizer) :
  (show_camera_runtime s = true -> camera_y_offset (layout s) = o) ->
  visible_geometry (set_camera_y_offset o s) = visible_geometry s.
Proof.
  intros H. unfold visible_geometry, mask_hidden, set_camera_y_offset.
  fields. layout_fields.
  destruct (show_camera_runtime s); [rewrite H |]; reflexivity.
Qed.

Lemma visible_geometry_set_grid (o : option Z) (s : DataVisualizer) :
  (show_grid_runtime s = true -> grid_y_offset (layout s) = o) ->
  visible_geometry (set_grid_y_offset o s) = visible_geometry s.
Proof.
  intros H. unfold visible_geometry, mask_hidden, set_grid_y_offset.
  fields. layout_fields.
  destruct (show_grid_runtime s); [rewrite H |]; reflexivity.
Qed.

Lemma sync_shown_offsets (s : DataVisualizer) :
  layout_in_sync s ->
  (show_camera_runtime s = true ->
   camera_y_offset (layout s) = Some (padding + (button_height + padding)))
  /\ (show_grid_runtime s = true ->
      grid_y_offset (layout s)
      = Some (grid_top (sizes s) (show_camera_runtime s))).
Proof.
  intros Hsync. split; intros Hshow; rewrite Hsync, Hshow.
  - reflexivity.
  - destruct (show_camera_runtime s); reflexivity.
Qed.

Lemma visible_geometry_pure (s : DataVisualizer) :
  layout_in_sync s ->
  visible_geometry s
  = mask_hidden (show_camera_runtime s) (show_grid_runtime s)
      (_recalculate_layout (sizes s) (show_camera_runtime s)
         (show_grid_runtime s) None None).
Proof.
  intros Hsync. unfold visible_geometry. rewrite Hsync.
  destruct (show_camera_runtime s), (show_grid_runtime s); reflexivity.
Qed.

(** C6, as the code has it. In every reachable state the geometry the
    renderer reads is a function of the sizes fixed at construction and of
    the two flags.  Two pointer-downs in a row on ToggleCamera (the second on
    the button where the first layout left it) give back the state they
    started from with [camera_y_offset] set to 55: the very same state when
    the camera was shown before them, and otherwise a state that differs at
    most in the stored offset of the hidden camera block.  The same holds for
    ToggleGrid and [grid_y_offset].  The stored offset of a hidden block is
    not part of what is restored. *)
Theorem toggle_twice_round_trip (cfg : GridConfig) (sc : bool)
    (s : DataVisualizer) (x y x' y' : Z) :
  reachable cfg sc s ->
  (exists sz,
      _calculate_responsive_sizes cfg = Ok sz
      /\ visible_geometry s
         = mask_hidden (show_camera_runtime s) (show_grid_runtime s)
             (_recalculate_layout sz (show_camera_runtime s)
                (show_grid_runtime s) None None))
  /\ (let s1 := deliver (pointerDown x y) s in
      let s2 := deliver (pointerDown x' y') s1 in
      _is_point_in_bounds x y (toggle_camera_button_bounds (layout s)) = true ->
      _is_point_in_bounds x' y' (toggle_camera_button_bounds (layout s1))
      = true ->
      s2 = set_camera_y_offset (Some (padding + (button_height + padding))) s
      /\ visible_geometry s2 = visible_geometry s
      /\ (show_camera_runtime s = true -> s2 = s))
  /\ (let s1 := deliver (pointerDown x y) s in
      let s2 := deliver (pointerDown x' y') s1 in
      _is_point_in_bounds x y (toggle_grid_button_bounds (layout s)) = true ->
      _is_point_in_bounds x' y' (toggle_grid_button_bounds (layout s1))
      = true ->
      s2 = set_grid_y_offset
             (Some (grid_top (sizes s) (show_camera_runtime s))) s
      /\ visible_geometry s2 = visible_geometry s
      /\ (show_grid_runtime s = true -> s2 = s)).
Proof.
  intros Hr.
  destruct (reachable_invariant _ _ _ Hr) as (_ & Hsz & Hsync).
  destruct (sync_shown_offsets s Hsync) as (Hcam & Hgrid).
  split; [| split].
  - exists (sizes s). split; [exact Hsz |].
    apply visible_geometry_pure, Hsync.
  - cbv zeta. intros H1 H2.
    rewrite (click_toggle_camera s x y Hsync H1) in *.
    rewrite (click_toggle_camera _ x' y' (toggle_camera_in_sync s) H2).
    rewrite (toggle_camera_twice s Hsync).
    split; [reflexivity | split].
    + apply visible_geometry_set_camera, Hcam.
    + apply set_camera_y_offset_shown, Hsync.
  - cbv zeta. intros H1 H2.
    rewrite (click_toggle_grid s x y Hsync H1) in *.
    rewrite (click_toggle_grid _ x' y' (toggle_grid_in_sync s) H2).
    rewrite (toggle_grid_twice s Hsync).
    split; [reflexivity | split].
    + apply visible_geometry_set_grid, Hgrid.
    + apply set_grid_y_offset_shown, Hsync.
Qed.

Lemma toggle_twice_round_trip_witness :
  exists s,
    session (mkGridConfig 2 3) true [] = Ok s
    /\ _is_point_in_bounds 270 20 (toggle_camera_button_bounds (layout s))
       = true
    /\ _is_point_in_bounds 270 20
         (toggle_camera_button_bounds
            (layout (deliver (pointerDown 270 20) s))) = true
    /\ show_camera_runtime (deliver (pointerDown 270 20) s) = false
    /\ deliver (pointerDown 270 20) (deliver (pointerDown 270 20) s) = s.
Proof.
  eexists. split; [vm_compute; reflexivity |].
  match goal with
  | |- _is_point_in_bounds _ _ (toggle_camera_button_bounds (layout ?s)) = true
       /\ _ =>
      assert (Hr : reachable (mkGridConfig 2 3) true s)
        by (apply reach_init; vm_compute; reflexivity);
      assert (H1 : _is_point_in_bounds 270 20
                     (toggle_camera_button_bounds (layout s)) = true)
        by (vm_compute; reflexivity);
      assert (H2 : _is_point_in_bounds 270 20
                     (toggle_camera_button_bounds
                        (layout (deliver (pointerDown 270 20) s))) = true)
        by (vm_compute; reflexivity);
      destruct (toggle_twice_round_trip _ _ s 270 20 270 20 Hr)
        as (_ & Hcam & _);
      destruct (Hcam H1 H2) as (_ & _ & Hsame)
  end.
  split; [exact H1 | split; [exact H2 | split; [vm_compute; reflexivity |]]].
  apply Hsame. vm_compute. reflexivity.
Defined.

(** C6, counterexample: with rows = 2 and cols = 3, hide the grid (pointer
    down at (420, 20)) and then the camera (at (270, 20)).  The stored
    [grid_y_offset] is still 545, from the layout in which the grid stood
    below the camera.  Toggling the grid twice, at (300, 20) and then at
    (340, 20) where the button has moved, leaves both flags as they were and
    [grid_y_offset] at 55. *)
Lemma toggle_twice_rewrites_hidden_offset :
  exists s,
    session (mkGridConfig 2 3) true [pointerDown 420 20; pointerDown 270 20]
    = Ok s
    /\ _is_point_in_bounds 300 20 (toggle_grid_button_bounds (layout s)) = true
    /\ _is_point_in_bounds 340 20
         (toggle_grid_button_bounds (layout (deliver (pointerDown 300 20) s)))
       = true
    /\ show_grid_runtime (deliver (pointerDown 300 20) s)
       = negb (show_grid_runtime s)
    /\ (let s2 := deliver (pointerDown 340 20) (deliver (pointerDown 300 20) s)
        in
        show_camera_runtime s2 = show_camera_runtime s
        /\ show_grid_runtime s2 = show_grid_runtime s
        /\ grid_y_offset (layout s) = Some 545
        /\ grid_y_offset (layout s2) = Some 55
        /\ layout s2 <> layout s).
Proof.
  eexists. split; [vm_compute; reflexivity |].
  repeat split; try (vm_compute; reflexivity).
  vm_compute. discriminate.
Qed.

(** The same effect on an attribute never assigned: built with the camera
    hidden, the object has no [camera_y_offset]; after two camera toggles the
    camera is hidden again and the attribute holds 55. *)
Lemma toggle_twice_assigns_unset_offset :
  exists s,
    session (mkGridConfig 2 3) false [] = Ok s
    /\ camera_y_offset (layout s) = None
    /\ (let s2 := deliver (pointerDown 270 20) (deliver (pointerDown 200 20) s)
        in
        show_camera_runtime s2 = show_camera_runtime s
        /\ camera_y_offset (layout s2) = Some 55).
Proof.
  eexists. split; [vm_compute; reflexivity |].
  repeat split; vm_compute; reflexivity.
Qed.

(** ** Camera step of [render] *)

Lemma np_filled_ok (h w v : Z) :
  0 <= h -> 0 <= w ->
  np_filled h w v = Ok (repeat (repeat (v, v, v) (Z.to_nat w)) (Z.to_nat h)).
Proof.
  intros Hh Hw. unfold np_filled.
  destruct (Z.ltb_spec h 0); [lia |].
  destruct (Z.ltb_spec w 0); [lia |].
  reflexivity.
Qed.


Lemma pixel_at_filled_inv (h w v y x : Z) (p : pixel) :
  pixel_at (repeat (repeat (v, v, v) (Z.to_nat w)) (Z.to_nat h)) y x = Some p ->
  p = (v, v, v).
Proof.
  unfold pixel_at.
  destruct ((y <? 0) || (x <? 0)); [discriminate |].
  destruct (nth_error _ (Z.to_nat y)) as [r |] eqn:Er; [| discriminate].
  intros Hp.
  apply nth_error_In, repeat_spec in Er. subst r.
  apply nth_error_In, repeat_spec in Hp. exact Hp.
Qed.

Lemma resize_empty_raises (frame : image) (w h : Z) :
  img_empty frame = true -> cv2_resize frame w h = Raise Cv2Error.
Proof.
  intros H. unfold cv2_resize. rewrite H. reflexivity.
Qed.

(** With the camera shown the canvas is never negative in size and holds the
    camera block, ten pixels inside each border. *)
Lemma camera_block_inside_canvas (cfg : GridConfig) (sc : bool)
    (s : DataVisualizer) :
  0 <= rows cfg ->
  reachable cfg sc s ->
  show_camera_runtime s = true ->
  let cam_y := padding + (button_height + padding) in
  let camera_x := floordiv (width (layout s) - camera_width (sizes s)) 2 in
  camera_y_offset (layout s) = Some cam_y
  /\ 0 <= cam_y
  /\ cam_y + camera_height (sizes s) <= height (layout s)
  /\ 0 <= camera_x
  /\ camera_x + camera_width (sizes s) <= width (layout s).
Proof.
  intros Hrows Hr Hshow. cbv zeta.
  destruct (reachable_invariant _ _ _ Hr) as (_ & Hsz & Hsync).
  destruct (sizes_nonneg _ _ Hsz) as (Hcell & Hcw & Hch).
  destruct (calculate_responsive_sizes_total cfg)
    as (sf & sz & _ & _ & _ & Hsz' & _ & _ & _ & _ & Hgh).
  rewrite Hsz' in Hsz. injection Hsz as Hsz. subst sz.
  assert (Hgrid : 0 <= grid_height (sizes s) + padding)
    by (rewrite Hgh; unfold padding; nia).
  rewrite Hsync, Hshow.
  unfold _recalculate_layout, floordiv. layout_fields.
  unfold padding, button_height in *.
  set (cw := camera_width (sizes s)) in *.
  assert (Hw : cw <= py_max_or
                      ([cw] ++ (if show_grid_runtime s
                                then [grid_width (sizes s)] else [])) 400).
  { destruct (show_grid_runtime s); cbn; lia. }
  set (m := py_max_or _ 400) in *.
  pose proof (Z.div_mod (m + 2 * 10 - cw) 2 ltac:(lia)) as Hdiv.
  pose proof (Z.mod_pos_bound (m + 2 * 10 - cw) 2 ltac:(lia)) as Hmod.
  repeat split; try lia.
  destruct (show_grid_runtime s); lia.
Qed.

(** The step on a frame that is not empty. With rows = 100, cols = 1 and the
    grid hidden (pointer-down at (110, 20)) the canvas is 54 x 91 and the
    camera block 34 x 26: a one-pixel frame is resized and copied to rows
    55..80, columns 10..43, and the pixels around the block keep the
    background. *)
Lemma camera_step_copies_frame :
  match session (mkGridConfig 100 1) true [pointerDown 110 20] with
  | Ok s =>
      match render_camera s (Some [[(1, 2, 3)]]) with
      | Ok canvas =>
          (img_height canvas, img_width canvas)
          = (91, 54)
          /\ [pixel_at canvas 55 10; pixel_at canvas 80 43]
             = [Some (1, 2, 3); Some (1, 2, 3)]
          /\ [pixel_at canvas 54 10; pixel_at canvas 55 9;
              pixel_at canvas 81 43; pixel_at canvas 80 44]
             = [Some (30, 30, 30); Some (30, 30, 30);
                Some (30, 30, 30); Some (30, 30, 30)]
      | Raise _ => False
      end
  | Raise _ => False
  end.
Proof.
  vm_compute. repeat split.
Qed.

(** * Further properties of the sizing, the layout and the drawing code *)

Import Draw.

(** ** Sizes as integer quotients *)

Lemma int_scaled (k t : Z) :
  0 <= k -> 0 < t ->
  int (inject_Z k * (inject_Z max_height / inject_Z t)) = (k * 900) / t.
Proof.
  intros Hk Ht. destruct t as [| p | p]; try lia.
  unfold int, Qdiv, Qmult, Qinv, inject_Z, max_height. cbn.
  apply Z.quot_div_nonneg; lia.
Qed.

Lemma sizes_closed_form (cfg : GridConfig) :
  exists sz,
    _calculate_responsive_sizes cfg = Ok sz
    /\ grid_width sz = cell_size sz * cols cfg + padding * (cols cfg + 1)
    /\ grid_height sz = cell_size sz * rows cfg + padding * (rows cfg + 1)
    /\ ((rows cfg <= 2
         /\ cell_size sz = 150 /\ camera_width sz = 640
         /\ camera_height sz = 480)
        \/ (3 <= rows cfg
            /\ cell_size sz = 135000 / (565 + 160 * rows cfg)
            /\ camera_width sz = 576000 / (565 + 160 * rows cfg)
            /\ camera_height sz = 432000 / (565 + 160 * rows cfg))).
Proof.
  destruct (calculate_responsive_sizes_total cfg)
    as (sf & sz & Hsf & _ & _ & Hsz & Hc & Hw & Hh & Hgw & Hgh).
  exists sz. split; [exact Hsz |]. split; [exact Hgw |]. split; [exact Hgh |].
  pose proof (total_desired_height_eq cfg) as Ht.
  destruct (scale_factor_cases cfg) as [[Hgt Hsf'] | [Hle Hsf']];
    rewrite Hsf' in Hsf; injection Hsf as <-; unfold max_height in *.
  - right. split; [lia |].
    rewrite Hc, Hw, Hh.
    unfold desired_cell_size, desired_camera_width, desired_camera_height.
    rewrite !int_scaled by lia. rewrite Ht. repeat split.
  - left. split; [lia |].
    rewrite Hc, Hw, Hh. repeat split.
Qed.

(** X1. Initial sizing always returns. The stored sizes are never negative
    and never above the desired 150, 640 and 480, and they are the desired
    ones exactly when [rows <= 2]; from three rows on every one of them is
    strictly smaller. *)
Theorem scaled_sizes_bounded (cfg : GridConfig) :
  exists sz,
    _calculate_responsive_sizes cfg = Ok sz
    /\ 0 <= cell_size sz <= desired_cell_size
    /\ 0 <= camera_width sz <= desired_camera_width
    /\ 0 <= camera_height sz <= desired_camera_height
    /\ (rows cfg <= 2 ->
        cell_size sz = desired_cell_size
        /\ camera_width sz = desired_camera_width
        /\ camera_height sz = desired_camera_height)
    /\ (3 <= rows cfg ->
        cell_size sz < desired_cell_size
        /\ camera_width sz < desired_camera_width
        /\ camera_height sz < desired_camera_height).
Proof.
  destruct (sizes_closed_form cfg) as (sz & Hsz & _ & _ & Hcase).
  exists sz. split; [exact Hsz |].
  unfold desired_cell_size, desired_camera_width, desired_camera_height.
  destruct Hcase as [(Hr & -> & -> & ->) | (Hr & -> & -> & ->)].
  - repeat split; intros; lia.
  - set (t := 565 + 160 * rows cfg).
    assert (Ht : 1045 <= t) by (unfold t; lia).
    assert (H1 : 0 <= 135000 / t <= 129).
    { split; [apply Z.div_pos; lia |].
      apply Z.lt_succ_r, Z.div_lt_upper_bound; lia. }
    assert (H2 : 0 <= 576000 / t <= 551).
    { split; [apply Z.div_pos; lia |].
      apply Z.lt_succ_r, Z.div_lt_upper_bound; lia. }
    assert (H3 : 0 <= 432000 / t <= 413).
    { split; [apply Z.div_pos; lia |].
      apply Z.lt_succ_r, Z.div_lt_upper_bound; lia. }
    repeat split; intros; lia.
Qed.

(** X2. Some size degenerates to zero from a fixed number of rows on:
    [cell_size] is 0 exactly from 841 rows, [camera_height] from 2697 and
    [camera_width] from 3597. *)
Theorem sizes_vanish (cfg : GridConfig) :
  exists sz,
    _calculate_responsive_sizes cfg = Ok sz
    /\ (cell_size sz = 0 <-> 841 <= rows cfg)
    /\ (camera_height sz = 0 <-> 2697 <= rows cfg)
    /\ (camera_width sz = 0 <-> 3597 <= rows cfg).
Proof.
  destruct (sizes_closed_form cfg) as (sz & Hsz & _ & _ & Hcase).
  exists sz. split; [exact Hsz |].
  destruct Hcase as [(Hr & -> & -> & ->) | (Hr & -> & -> & ->)].
  - repeat split; intros; lia.
  - set (t := 565 + 160 * rows cfg).
    assert (Ht : 0 < t) by (unfold t; lia).
    assert (Hz : forall k, 0 <= k -> (k / t = 0 <-> k < t)).
    { intros k Hk. split.
      - intros H0. pose proof (Z.div_mod k t ltac:(lia)) as Hd.
        pose proof (Z.mod_pos_bound k t Ht). nia.
      - intros Hlt. apply Z.div_small. lia. }
    rewrite !Hz by lia. unfold t. repeat split; intros; lia.
Qed.

(** ** Canvas size against the two limits *)

Lemma py_max_or_ge_last (ws : list Z) (w fallback : Z) :
  w <= py_max_or (ws ++ [w]) fallback.
Proof.
  destruct ws as [| a ws]; cbn; [lia |].
  rewrite fold_left_app. cbn. lia.
Qed.

(** X3. [max_height] is compared with the unscaled layout only. Built with
    the camera shown, the canvas is as high as the bar, the camera and the
    grid with their paddings, and that height exceeds [max_height] = 900
    exactly when [rows >= 3], that is exactly when the sizes were scaled
    down: the paddings are not scaled. *)
Theorem scaled_layout_exceeds_max_height (cfg : GridConfig) :
  exists v,
    __init__ cfg true = Ok v
    /\ height (layout v)
       = padding + (button_height + padding)
         + (camera_height (sizes v) + padding)
         + (grid_height (sizes v) + padding)
    /\ (max_height < height (layout v) <-> 3 <= rows cfg).
Proof.
  destruct (init_total cfg true) as (sz & Hsz & Hinit).
  eexists. split; [exact Hinit |]. fields.
  split; [reflexivity |].
  unfold _recalculate_layout. layout_fields.
  destruct (sizes_closed_form cfg) as (sz' & Hsz' & _ & Hgh & Hcase).
  rewrite Hsz in Hsz'. injection Hsz' as <-.
  rewrite Hgh. unfold padding, button_height, max_height.
  destruct Hcase as [(Hr & -> & _ & ->) | (Hr & -> & _ & ->)]; [lia |].
  split; [intros _; exact Hr | intros _].
  set (t := 565 + 160 * rows cfg).
  assert (Ht : 0 < t) by (unfold t; lia).
  pose proof (Z.div_mod 432000 t ltac:(lia)) as Hd1.
  pose proof (Z.mod_pos_bound 432000 t Ht) as Hm1.
  pose proof (Z.div_mod 135000 t ltac:(lia)) as Hd2.
  pose proof (Z.mod_pos_bound 135000 t Ht) as Hm2.
  set (q1 := 432000 / t) in *. set (q2 := 135000 / t) in *.
  assert (H1 : 432000 - t < t * q1) by lia.
  assert (H2 : 135000 - t < t * q2) by lia.
  assert (H3 : (135000 - t) * rows cfg <= t * q2 * rows cfg) by nia.
  assert (Hgoal : 900 * t
                  < t * (10 + (35 + 10) + (q1 + 10)
                         + (q2 * rows cfg + 10 * (rows cfg + 1) + 10))).
  { unfold t in *. nia. }
  nia.
Qed.

(** X4. [max_width] = 1600 is never applied. At construction the canvas is
    at least as wide as the grid plus two paddings, so it is wider than
    [max_width] whenever [cols >= 158], and already for [cols >= 10] when
    the cells keep their desired size ([rows <= 2]). *)
Theorem canvas_width_unbounded (cfg : GridConfig) (show_camera : bool) :
  exists v,
    __init__ cfg show_camera = Ok v
    /\ grid_width (sizes v) + 2 * padding <= width (layout v)
    /\ (158 <= cols cfg -> max_width < width (layout v))
    /\ (rows cfg <= 2 -> 10 <= cols cfg -> max_width < width (layout v)).
Proof.
  destruct (init_total cfg show_camera) as (sz & Hsz & Hinit).
  eexists. split; [exact Hinit |]. fields.
  unfold _recalculate_layout. layout_fields.
  assert (Hw : grid_width sz
               <= py_max_or ((if show_camera then [camera_width sz] else [])
                             ++ [grid_width sz]) 400)
    by apply py_max_or_ge_last.
  destruct (sizes_nonneg _ _ Hsz) as (Hcell & _ & _).
  destruct (sizes_closed_form cfg) as (sz' & Hsz' & Hgw & _ & Hcase).
  rewrite Hsz in Hsz'. injection Hsz' as <-.
  unfold padding, max_width in *.
  split; [lia | split].
  - intros Hc. nia.
  - intros Hr Hc.
    destruct Hcase as [(_ & Hcs & _) | (Hr' & _)]; [| lia].
    rewrite Hcs in Hgw. lia.
Qed.

(** ** Blocks in a reachable state *)

Lemma sync_layout_fields (s : DataVisualizer) :
  layout_in_sync s ->
  button_bar_y (layout s) = padding
  /\ height (layout s)
     = padding + (button_height + padding)
       + (if show_camera_runtime s
          then camera_height (sizes s) + padding else 0)
       + (if show_grid_runtime s then grid_height (sizes s) + padding else 0)
  /\ width (layout s)
     = py_max_or
         ((if show_camera_runtime s then [camera_width (sizes s)] else [])
          ++ (if show_grid_runtime s then [grid_width (sizes s)] else []))
         400
       + 2 * padding.
Proof.
  intros Hsync. rewrite Hsync.
  unfold _recalculate_layout. layout_fields.
  destruct (show_camera_runtime s), (show_grid_runtime s);
    repeat split; lia.
Qed.

(** X5. In every reachable state the bar is at y = 10 and the shown blocks
    are stacked below it one padding apart: the camera, when shown, starts
    at 55; the grid, when shown, starts one padding below the camera block,
    or at 55 when the camera is hidden; and the canvas ends one padding below
    the last block shown. *)
Theorem blocks_stacked (cfg : GridConfig) (sc : bool) (s : DataVisualizer) :
  reachable cfg sc s ->
  button_bar_y (layout s) = padding
  /\ (show_camera_runtime s = true ->
      camera_y_offset (layout s)
      = Some (button_bar_y (layout s) + button_height + padding))
  /\ (show_grid_runtime s = true ->
      grid_y_offset (layout s)
      = Some (if show_camera_runtime s
              then 55 + camera_height (sizes s) + padding
              else button_bar_y (layout s) + button_height + padding))
  /\ height (layout s)
     = button_bar_y (layout s) + button_height + padding
       + (if show_camera_runtime s
          then camera_height (sizes s) + padding else 0)
       + (if show_grid_runtime s then grid_height (sizes s) + padding else 0).
Proof.
  intros Hr.
  destruct (reachable_invariant _ _ _ Hr) as (_ & _ & Hsync).
  destruct (sync_layout_fields s Hsync) as (Hbar & Hh & _).
  destruct (sync_shown_offsets s Hsync) as (Hcam & Hgrid).
  rewrite Hbar. split; [reflexivity |].
  split; [| split].
  - intros Hc. rewrite (Hcam Hc). reflexivity.
  - intros Hg. rewrite (Hgrid Hg). unfold grid_top, padding, button_height.
    destruct (show_camera_runtime s); f_equal; lia.
  - rewrite Hh. lia.
Qed.

Lemma blocks_stacked_witness :
  exists s,
    session (mkGridConfig 2 3) true [] = Ok s
    /\ camera_y_offset (layout s) = Some 55
    /\ grid_y_offset (layout s) = Some 545
    /\ height (layout s) = 885.
Proof.
  eexists. split; [vm_compute; reflexivity |].
  match goal with
  | |- camera_y_offset (layout ?s) = _ /\ _ =>
      assert (Hr : reachable (mkGridConfig 2 3) true s)
        by (apply reach_init; vm_compute; reflexivity);
      destruct (blocks_stacked _ _ s Hr) as (_ & Hc & Hg & Hh)
  end.
  split; [apply Hc; reflexivity |].
  split; [apply Hg; reflexivity | exact Hh].
Defined.

(** ** Pointer events outside the buttons, and the hover position *)

(** X6. In a reachable state a pointer-down above or below the button bar
    (y < 10 or y > 45), or left or right of the row of buttons, changes
    nothing: clicks on the camera or grid blocks are ignored. *)
Theorem click_off_the_bar_ignored (cfg : GridConfig) (sc : bool)
    (s : DataVisualizer) (x y : Z) :
  reachable cfg sc s ->
  let b := (width (layout s) - 440) / 2 in
  y < 10 \/ 45 < y \/ x < b \/ b + 440 < x ->
  deliver (pointerDown x y) s = s.
Proof.
  intros Hr b Hout.
  destruct (reachable_invariant _ _ _ Hr) as (_ & _ & Hsync).
  destruct (sync_button_bounds s Hsync) as (Hc & Htc & Htg).
  fold b in Hc, Htc, Htg.
  unfold deliver, pointerDown, _mouse_callback.
  cbn [ev_code ev_x ev_y ev_flags].
  replace (EVENT_LBUTTONDOWN =? EVENT_MOUSEMOVE) with false by reflexivity.
  replace (EVENT_LBUTTONDOWN =? EVENT_LBUTTONDOWN) with true by reflexivity.
  rewrite Hc, Htc, Htg.
  rewrite !(proj2 (is_point_in_bounds_false_iff _ _ _ _ _ _)) by lia.
  reflexivity.
Qed.

Lemma click_off_the_bar_ignored_witness :
  exists s,
    session (mkGridConfig 2 3) true [] = Ok s
    /\ deliver (pointerDown 300 200) s = s.
Proof.
  eexists. split; [vm_compute; reflexivity |].
  match goal with
  | |- deliver _ ?s = _ =>
      assert (Hr : reachable (mkGridConfig 2 3) true s)
        by (apply reach_init; vm_compute; reflexivity);
      apply (click_off_the_bar_ignored _ _ s 300 200 Hr)
  end.
  right. left. lia.
Defined.

Lemma deliver_keeps_mouse (e : PointerEvent) (s : DataVisualizer) :
  (ev_code e =? EVENT_MOUSEMOVE) = false ->
  mouse_x (deliver e s) = mouse_x s /\ mouse_y (deliver e s) = mouse_y s.
Proof.
  intros Hcode. unfold deliver, _mouse_callback. rewrite Hcode.
  destruct (ev_code e =? EVENT_LBUTTONDOWN); [| auto].
  destruct (_is_point_in_bounds _ _ (close_button_bounds _));
    [fields; auto |].
  destruct (_is_point_in_bounds _ _ (toggle_camera_button_bounds _));
    [fields; auto |].
  destruct (_is_point_in_bounds _ _ (toggle_grid_button_bounds _));
    fields; auto.
Qed.

Lemma deliver_all_keeps_mouse (es : list PointerEvent) (s : DataVisualizer) :
  forallb (fun e => negb (ev_code e =? EVENT_MOUSEMOVE)) es = true ->
  mouse_x (deliver_all es s) = mouse_x s
  /\ mouse_y (deliver_all es s) = mouse_y s.
Proof.
  unfold deliver_all. revert s.
  induction es as [| e es IH]; intros s Hall; [cbn; auto |].
  cbn [fold_left forallb] in *.
  apply andb_true_iff in Hall. destruct Hall as (He & Hes).
  apply negb_true_iff in He.
  destruct (IH (deliver e s) Hes) as (Hx & Hy).
  destruct (deliver_keeps_mouse e s He) as (Hx' & Hy').
  rewrite Hx, Hy, Hx', Hy'. auto.
Qed.

(** X7. No button is drawn hovered before the first pointer move: after
    construction and any events other than moves, [_is_mouse_over_bounds] is
    false for every rectangle. *)
Theorem no_hover_before_first_move (cfg : GridConfig) (sc : bool)
    (es : list PointerEvent) (s : DataVisualizer) :
  forallb (fun e => negb (ev_code e =? EVENT_MOUSEMOVE)) es = true ->
  session cfg sc es = Ok s ->
  forall bounds, _is_mouse_over_bounds s bounds = false.
Proof.
  intros Hall Hs bounds.
  destruct (init_total cfg sc) as (sz & _ & Hinit).
  unfold session in Hs. rewrite Hinit in Hs. cbn [bind] in Hs.
  injection Hs as <-.
  unfold _is_mouse_over_bounds.
  rewrite (proj1 (deliver_all_keeps_mouse es _ Hall)). reflexivity.
Qed.

Lemma no_hover_before_first_move_witness :
  exists s,
    session (mkGridConfig 2 3) true [pointerDown 420 20; pointerDown 5 5]
    = Ok s
    /\ _is_mouse_over_bounds s (toggle_grid_button_bounds (layout s)) = false.
Proof.
  eexists. split; [vm_compute; reflexivity |].
  eapply (no_hover_before_first_move (mkGridConfig 2 3) true
            [pointerDown 420 20; pointerDown 5 5]);
    vm_compute; reflexivity.
Defined.

(** X8. The hover test uses the position of the last pointer move: events
    that are not moves, pointer-downs included, leave it where it was, so
    after a move to (x, y) and any such events a rectangle is hovered exactly
    when it contains (x, y), also when a toggle has moved the buttons since. *)
Theorem hover_tracks_last_move (s : DataVisualizer) (x y : Z)
    (es : list PointerEvent) :
  forallb (fun e => negb (ev_code e =? EVENT_MOUSEMOVE)) es = true ->
  forall bounds,
    _is_mouse_over_bounds (deliver_all es (deliver (pointerMove x y) s)) bounds
    = _is_point_in_bounds x y bounds.
Proof.
  intros Hall bounds.
  destruct (deliver_all_keeps_mouse es (deliver (pointerMove x y) s) Hall)
    as (Hx & Hy).
  unfold _is_mouse_over_bounds. rewrite Hx, Hy. reflexivity.
Qed.

Lemma hover_tracks_last_move_witness :
  exists s,
    session (mkGridConfig 2 3) true [] = Ok s
    /\ (let s' := deliver_all [pointerDown 420 20]
                    (deliver (pointerMove 420 20) s) in
        show_grid_runtime s' = false
        /\ _is_mouse_over_bounds s' (toggle_grid_button_bounds (layout s'))
           = true).
Proof.
  eexists. split; [vm_compute; reflexivity |].
  cbv zeta. split; [vm_compute; reflexivity |].
  rewrite (hover_tracks_last_move _ 420 20 [pointerDown 420 20]
             ltac:(vm_compute; reflexivity)).
  vm_compute. reflexivity.
Defined.

(** X9. In a reachable state at most one of the three buttons is hovered. *)
Theorem hover_exclusive (cfg : GridConfig) (sc : bool) (s : DataVisualizer) :
  reachable cfg sc s ->
  let over b := _is_mouse_over_bounds s b in
  let cb := close_button_bounds (layout s) in
  let tc := toggle_camera_button_bounds (layout s) in
  let tg := toggle_grid_button_bounds (layout s) in
  (over cb = true -> over tc = false /\ over tg = false)
  /\ (over tc = true -> over cb = false /\ over tg = false)
  /\ (over tg = true -> over cb = false /\ over tc = false).
Proof.
  intros Hr. cbv zeta.
  destruct (reachable_invariant _ _ _ Hr) as (_ & _ & Hsync).
  destruct (sync_button_bounds s Hsync) as (Hc & Htc & Htg).
  rewrite Hc, Htc, Htg.
  unfold _is_mouse_over_bounds.
  destruct (mouse_x s) as [mx |]; [| repeat split; discriminate].
  destruct (mouse_y s) as [my |]; [| repeat split; discriminate].
  repeat split;
    match goal with
    | H : _is_point_in_bounds _ _ _ = true |- _ =>
        apply is_point_in_bounds_iff in H;
        apply is_point_in_bounds_false_iff; lia
    end.
Qed.

Lemma hover_exclusive_witness :
  exists s,
    session (mkGridConfig 2 3) true [pointerMove 120 20] = Ok s
    /\ _is_mouse_over_bounds s (close_button_bounds (layout s)) = true
    /\ _is_mouse_over_bounds s (toggle_camera_button_bounds (layout s)) = false.
Proof.
  eexists. split; [vm_compute; reflexivity |].
  match goal with
  | |- _is_mouse_over_bounds ?s _ = true /\ _ =>
      assert (Hr : reachable (mkGridConfig 2 3) true s);
      [| assert (Hc : _is_mouse_over_bounds s (close_button_bounds (layout s))
                      = true) by (vm_compute; reflexivity);
         destruct (hover_exclusive _ _ s Hr) as (H1 & _);
         split; [exact Hc | exact (proj1 (H1 Hc))] ]
  end.
  match goal with
  | |- reachable _ _ ?s =>
      change s with
        (deliver (pointerMove 120 20)
           (mkDataVisualizer (mkGridConfig 2 3) false true true
              (mkSizes 150 640 480 490 330)
              (mkLayout 10 (Some 55) (Some 545) 885 660
                 (110, 10, 250, 45) (260, 10, 400, 45) (410, 10, 550, 45))
              None None))
  end.
  apply reach_event. apply reach_init. vm_compute. reflexivity.
Defined.

(** ** Buttons as drawn *)

Import String.

Lemma click_close (s : DataVisualizer) (x y : Z) :
  _is_point_in_bounds x y (close_button_bounds (layout s)) = true ->
  deliver (pointerDown x y) s = set_should_close s.
Proof.
  intros Hin. unfold deliver, pointerDown, _mouse_callback.
  cbn [ev_code ev_x ev_y ev_flags].
  replace (EVENT_LBUTTONDOWN =? EVENT_MOUSEMOVE) with false by reflexivity.
  replace (EVENT_LBUTTONDOWN =? EVENT_LBUTTONDOWN) with true by reflexivity.
  rewrite Hin. reflexivity.
Qed.

(** The rectangles among a list of drawing calls, in order. *)
Lemma draw_buttons_rectangles
    (getTextSize : string -> Z -> float -> Z -> Z * Z) (s : DataVisualizer) :
  map rectangle_bounds (_draw_buttons getTextSize s)
  = [ Some (close_button_bounds (layout s));
      Some (close_button_bounds (layout s)); None;
      Some (toggle_camera_button_bounds (layout s));
      Some (toggle_camera_button_bounds (layout s)); None;
      Some (toggle_grid_button_bounds (layout s));
      Some (toggle_grid_button_bounds (layout s)); None ].
Proof.
  unfold _draw_buttons, _draw_button.
  destruct (close_button_bounds (layout s)) as [[[a1 a2] a3] a4].
  destruct (toggle_camera_button_bounds (layout s)) as [[[b1 b2] b3] b4].
  destruct (toggle_grid_button_bounds (layout s)) as [[[c1 c2] c3] c4].
  reflexivity.
Qed.

(** X10. What is drawn is what is clicked. [_draw_buttons] draws, for each
    button, a filled rectangle and its border with exactly the corners of the
    bounds the callback tests, and in a reachable state a pointer-down on any
    pixel of the first, second or third drawn rectangle (corners and edges
    included) closes, toggles the camera or toggles the grid. *)
Theorem buttons_drawn_where_clicked
    (getTextSize : string -> Z -> float -> Z -> Z * Z)
    (cfg : GridConfig) (sc : bool) (s : DataVisualizer) :
  reachable cfg sc s ->
  exists r1 r2 r3,
    map rectangle_bounds (_draw_buttons getTextSize s)
    = [Some r1; Some r1; None; Some r2; Some r2; None; Some r3; Some r3; None]
    /\ forall x y,
        (_is_point_in_bounds x y r1 = true ->
         deliver (pointerDown x y) s = set_should_close s)
        /\ (_is_point_in_bounds x y r2 = true ->
            deliver (pointerDown x y) s = toggle_camera s)
        /\ (_is_point_in_bounds x y r3 = true ->
            deliver (pointerDown x y) s = toggle_grid s).
Proof.
  intros Hr.
  destruct (reachable_invariant _ _ _ Hr) as (_ & _ & Hsync).
  exists (close_button_bounds (layout s)),
    (toggle_camera_button_bounds (layout s)),
    (toggle_grid_button_bounds (layout s)).
  split; [apply draw_buttons_rectangles |].
  intros x y. split; [| split].
  - apply click_close.
  - apply click_toggle_camera, Hsync.
  - apply click_toggle_grid, Hsync.
Qed.

Lemma buttons_drawn_where_clicked_witness :
  exists s,
    session (mkGridConfig 2 3) true [] = Ok s
    /\ nth 3 (map rectangle_bounds (_draw_buttons (fun _ _ _ _ => (90, 12)) s))
         None = Some (260, 10, 400, 45)
    /\ deliver (pointerDown 400 45) s = toggle_camera s.
Proof.
  eexists. split; [vm_compute; reflexivity |].
  split; [vm_compute; reflexivity |].
  match goal with
  | |- deliver _ ?s = _ =>
      assert (Hr : reachable (mkGridConfig 2 3) true s)
        by (apply reach_init; vm_compute; reflexivity);
      destruct (buttons_drawn_where_clicked (fun _ _ _ _ => (90, 12)) _ _ s Hr)
        as (r1 & r2 & r3 & Hrects & Hclick)
  end.
  apply (proj1 (proj2 (Hclick 400 45))).
  vm_compute in Hrects. injection Hrects as _ _ <- _ _ _.
  reflexivity.
Defined.

(** X11. [_draw_button] draws the fill, the border and then the label, and
    centres the label: when the measured text is no wider and no higher than
    the button, the text box, from its origin [tw] to the right and [th] up,
    lies inside the button, with left and right margins that differ by at
    most one pixel. *)
Theorem button_label_inside
    (getTextSize : string -> Z -> float -> Z -> Z * Z)
    (s : DataVisualizer) (x1 y1 x2 y2 : Z) (text : string)
    (normal_color hover_color : Color) (font : Z) (font_scale : float)
    (thickness : Z) :
  let tw := fst (getTextSize text font font_scale thickness) in
  let th := snd (getTextSize text font font_scale thickness) in
  0 <= tw <= x2 - x1 ->
  0 <= th <= y2 - y1 ->
  exists fill tx ty,
    _draw_button getTextSize s (x1, y1, x2, y2) text normal_color hover_color
      font font_scale thickness
    = [ Rectangle (x1, y1) (x2, y2) fill (-1);
        Rectangle (x1, y1) (x2, y2) (120, 120, 120) 1;
        PutText text (tx, ty) font font_scale (255, 255, 255) thickness
          LINE_AA ]
    /\ fill = (if _is_mouse_over_bounds s (x1, y1, x2, y2)
               then hover_color else normal_color)
    /\ x1 <= tx /\ tx + tw <= x2
    /\ 0 <= (x2 - (tx + tw)) - (tx - x1) <= 1
    /\ y1 <= ty - th /\ ty <= y2.
Proof.
  cbv zeta. intros Hw Hh.
  unfold _draw_button, floordiv.
  set (tw := fst _) in *. set (th := snd _) in *.
  do 3 eexists. split; [reflexivity |]. split; [reflexivity |].
  pose proof (Z.div_mod (x2 - x1 - tw) 2 ltac:(lia)).
  pose proof (Z.mod_pos_bound (x2 - x1 - tw) 2 ltac:(lia)).
  pose proof (Z.div_mod (y2 - y1 + th) 2 ltac:(lia)).
  pose proof (Z.mod_pos_bound (y2 - y1 + th) 2 ltac:(lia)).
  repeat split; lia.
Qed.

Lemma button_label_inside_witness :
  exists cmds,
    _draw_button (fun _ _ _ _ => (91, 12))
      (mkDataVisualizer (mkGridConfig 2 3) false true true
         (mkSizes 150 640 480 490 330)
         (mkLayout 10 (Some 55) (Some 545) 885 660
            (110, 10, 250, 45) (260, 10, 400, 45) (410, 10, 550, 45))
         (Some 300) (Some 20))
      (260, 10, 400, 45) "Hide Camera" (60, 120, 60) (80, 150, 80)
      FONT_HERSHEY_SIMPLEX float_0_5 1
    = cmds
    /\ nth 0 cmds (Circle (0, 0) 0 (0, 0, 0) 0)
       = Rectangle (260, 10) (400, 45) (80, 150, 80) (-1)
    /\ nth 2 cmds (Circle (0, 0) 0 (0, 0, 0) 0)
       = PutText "Hide Camera" (284, 33) FONT_HERSHEY_SIMPLEX float_0_5
           (255, 255, 255) 1 LINE_AA.
Proof.
  destruct (button_label_inside (fun _ _ _ _ => (91, 12))
              (mkDataVisualizer (mkGridConfig 2 3) false true true
                 (mkSizes 150 640 480 490 330)
                 (mkLayout 10 (Some 55) (Some 545) 885 660
                    (110, 10, 250, 45) (260, 10, 400, 45) (410, 10, 550, 45))
                 (Some 300) (Some 20))
              260 10 400 45 "Hide Camera"%string (60, 120, 60) (80, 150, 80)
              FONT_HERSHEY_SIMPLEX float_0_5 1
              ltac:(cbn; lia) ltac:(cbn; lia))
    as (fill & tx & ty & Heq & _).
  eexists. split; [exact Heq |].
  vm_compute in Heq. injection Heq as <- <- <-.
  split; reflexivity.
Defined.

(** ** Tiles of the grid *)

(** Where the grid block sits when it is shown. *)
Lemma grid_block_inside_canvas (cfg : GridConfig) (sc : bool)
    (s : DataVisualizer) :
  reachable cfg sc s ->
  show_grid_runtime s = true ->
  let grid_x_offset :=
    floordiv (width (layout s) - grid_width (sizes s)) 2 in
  exists grid_y,
    grid_y_offset (layout s) = Some grid_y
    /\ grid_y = grid_top (sizes s) (show_camera_runtime s)
    /\ height (layout s) = grid_y + grid_height (sizes s) + padding
    /\ padding <= grid_x_offset
    /\ grid_x_offset + grid_width (sizes s) <= width (layout s) - padding
    /\ grid_width (sizes s)
       = cell_size (sizes s) * cols cfg + padding * (cols cfg + 1)
    /\ grid_height (sizes s)
       = cell_size (sizes s) * rows cfg + padding * (rows cfg + 1)
    /\ 0 <= cell_size (sizes s)
    /\ 0 <= camera_height (sizes s).
Proof.
  intros Hr Hshow. cbv zeta.
  destruct (reachable_invariant _ _ _ Hr) as (_ & Hsz & Hsync).
  destruct (sync_layout_fields s Hsync) as (_ & Hh & Hw).
  destruct (sync_shown_offsets s Hsync) as (_ & Hgrid).
  destruct (sizes_nonneg _ _ Hsz) as (Hcell & _ & Hcam).
  destruct (calculate_responsive_sizes_total cfg)
    as (sf & sz & _ & _ & _ & Hsz' & _ & _ & _ & Hgw & Hgh).
  rewrite Hsz' in Hsz. injection Hsz as Hsz. subst sz.
  exists (grid_top (sizes s) (show_camera_runtime s)).
  split; [apply Hgrid, Hshow |]. split; [reflexivity |].
  rewrite Hshow in Hh, Hw.
  pose proof (py_max_or_ge_last
                (if show_camera_runtime s then [camera_width (sizes s)] else [])
                (grid_width (sizes s)) 400) as Hmax.
  unfold floordiv. rewrite Hw, Hh. unfold grid_top, padding, button_height in *.
  set (m := py_max_or _ 400) in *.
  pose proof (Z.div_mod (m + 2 * 10 - grid_width (sizes s)) 2 ltac:(lia)).
  pose proof (Z.mod_pos_bound (m + 2 * 10 - grid_width (sizes s)) 2
                ltac:(lia)).
  repeat split; try assumption; try lia.
  destruct (show_camera_runtime s); lia.
Qed.

(** X12. With the grid shown, the tile of a cell whose row and column are
    within the configured grid lies inside the grid block, one padding in
    from its edges, and so inside the canvas: the rectangle drawn for it,
    corners included, never leaves the canvas. *)
Theorem tile_inside_grid_block (cfg : GridConfig) (sc : bool)
    (s : DataVisualizer) (cell_data : CellData) :
  reachable cfg sc s ->
  show_grid_runtime s = true ->
  0 <= row cell_data < rows cfg ->
  0 <= col cell_data < cols cfg ->
  let grid_x_offset :=
    floordiv (width (layout s) - grid_width (sizes s)) 2 in
  exists grid_y,
    grid_y_offset (layout s) = Some grid_y
    /\ (let t := tile_bounds s grid_x_offset grid_y cell_data in
        grid_x_offset + padding <= x1_of t
        /\ x2_of t <= grid_x_offset + grid_width (sizes s) - padding
        /\ grid_y + padding <= y1_of t
        /\ y2_of t <= grid_y + grid_height (sizes s) - padding
        /\ 0 <= x1_of t /\ x2_of t < width (layout s)
        /\ 0 <= y1_of t /\ y2_of t < height (layout s)).
Proof.
  intros Hr Hshow Hrow Hcol. cbv zeta.
  destruct (grid_block_inside_canvas cfg sc s Hr Hshow)
    as (gy & Hgy & Hval & Hh & Hx0 & Hx1 & Hgw & Hgh & Hcell & Hcam).
  exists gy. split; [exact Hgy |].
  unfold tile_bounds, tile_x, tile_y, x1_of, x2_of, y1_of, y2_of.
  assert (Hgy0 : 55 <= gy).
  { rewrite Hval. unfold grid_top, padding, button_height.
    destruct (show_camera_runtime s); lia. }
  unfold padding in *.
  set (cs := cell_size (sizes s)) in *.
  set (gx := floordiv _ 2) in *.
  repeat split; nia.
Qed.

Lemma tile_inside_grid_block_witness :
  exists s,
    session (mkGridConfig 2 3) true [] = Ok s
    /\ tile_bounds s
         (floordiv (width (layout s) - grid_width (sizes s)) 2) 545
         (mkCellData 1 2 (PrimFloat.one, PrimFloat.zero, PrimFloat.zero)
            PrimFloat.one PrimFloat.zero PrimFloat.zero PrimFloat.one
            PrimFloat.zero)
       = (415, 715, 565, 865)
    /\ 865 < height (layout s).
Proof.
  eexists. split; [vm_compute; reflexivity |].
  split; [vm_compute; reflexivity |].
  match goal with
  | |- _ < height (layout ?s) =>
      assert (Hr : reachable (mkGridConfig 2 3) true s)
        by (apply reach_init; vm_compute; reflexivity);
      destruct (tile_inside_grid_block _ _ s
                  (mkCellData 1 2
                     (PrimFloat.one, PrimFloat.zero, PrimFloat.zero)
                     PrimFloat.one PrimFloat.zero PrimFloat.zero PrimFloat.one
                     PrimFloat.zero)
                  Hr ltac:(reflexivity) ltac:(cbn; lia) ltac:(cbn; lia))
        as (gy & Hgy & Hin)
  end.
  vm_compute in Hgy. injection Hgy as <-.
  exact (proj2 (proj2 (proj2 (proj2 (proj2 (proj2 (proj2 Hin))))))).
Defined.

(** X13. The tiles of two cells that differ in row or in column share no
    pixel, borders included: tiles are [cell_size] apart plus one padding. *)
Theorem tiles_disjoint (cfg : GridConfig) (sc : bool) (s : DataVisualizer)
    (grid_x_offset grid_y : Z) (c1 c2 : CellData) :
  reachable cfg sc s ->
  row c1 <> row c2 \/ col c1 <> col c2 ->
  bounds_disjoint (tile_bounds s grid_x_offset grid_y c1)
    (tile_bounds s grid_x_offset grid_y c2).
Proof.
  intros Hr Hdiff x y Hin.
  destruct (reachable_invariant _ _ _ Hr) as (_ & Hsz & _).
  destruct (sizes_nonneg _ _ Hsz) as (Hcell & _ & _).
  unfold tile_bounds, tile_x, tile_y, padding in *.
  apply is_point_in_bounds_iff in Hin.
  apply is_point_in_bounds_false_iff.
  set (cs := cell_size (sizes s)) in *.
  destruct Hdiff as [Hd | Hd].
  - assert (row c1 < row c2 \/ row c2 < row c1) as [Hlt | Hlt] by lia; nia.
  - assert (col c1 < col c2 \/ col c2 < col c1) as [Hlt | Hlt] by lia; nia.
Qed.

Lemma tiles_disjoint_witness :
  exists s,
    session (mkGridConfig 2 3) true [] = Ok s
    /\ _is_point_in_bounds 235 225
         (tile_bounds s 85 545
            (mkCellData 0 0 (PrimFloat.one, PrimFloat.zero, PrimFloat.zero)
               PrimFloat.one PrimFloat.zero PrimFloat.zero PrimFloat.one
               PrimFloat.zero)) = false
    /\ _is_point_in_bounds 255 705
         (tile_bounds s 85 545
            (mkCellData 0 1 (PrimFloat.one, PrimFloat.zero, PrimFloat.zero)
               PrimFloat.one PrimFloat.zero PrimFloat.zero PrimFloat.one
               PrimFloat.zero)) = true
    /\ _is_point_in_bounds 255 705
         (tile_bounds s 85 545
            (mkCellData 0 0 (PrimFloat.one, PrimFloat.zero, PrimFloat.zero)
               PrimFloat.one PrimFloat.zero PrimFloat.zero PrimFloat.one
               PrimFloat.zero)) = false.
Proof.
  eexists. split; [vm_compute; reflexivity |].
  split; [vm_compute; reflexivity |].
  match goal with
  | |- _is_point_in_bounds 255 705 (tile_bounds ?s _ _ ?c) = true /\ _ =>
      assert (Hin : _is_point_in_bounds 255 705 (tile_bounds s 85 545 c) = true)
        by (vm_compute; reflexivity);
      assert (Hr : reachable (mkGridConfig 2 3) true s)
        by (apply reach_init; vm_compute; reflexivity);
      split; [exact Hin |];
      apply (tiles_disjoint _ _ s 85 545 c _ Hr); [| exact Hin]
  end.
  right. cbn. lia.
Defined.

(** X14. With the grid shown, the tile of a cell in a row that is not
    negative starts below the button bar and, when the camera is shown, at
    least two paddings below the last row of the camera block. *)
Theorem tiles_below_camera (cfg : GridConfig) (sc : bool)
    (s : DataVisualizer) (grid_x_offset : Z) (cell_data : CellData) :
  reachable cfg sc s ->
  show_grid_runtime s = true ->
  0 <= row cell_data ->
  exists grid_y,
    grid_y_offset (layout s) = Some grid_y
    /\ (let top := y1_of (tile_bounds s grid_x_offset grid_y cell_data) in
        y2_of (close_button_bounds (layout s)) + 2 * padding <= top
        /\ (show_camera_runtime s = true ->
            55 + camera_height (sizes s) + 2 * padding <= top)).
Proof.
  intros Hr Hshow Hrow.
  destruct (grid_block_inside_canvas cfg sc s Hr Hshow)
    as (gy & Hgy & Hval & _ & _ & _ & _ & _ & Hcell & Hcam).
  destruct (reachable_invariant _ _ _ Hr) as (_ & _ & Hsync).
  destruct (sync_button_bounds s Hsync) as (Hc & _ & _).
  exists gy. split; [exact Hgy |]. cbv zeta.
  rewrite Hc. unfold tile_bounds, tile_y, y1_of, y2_of.
  rewrite Hval. unfold grid_top, padding, button_height.
  set (cs := cell_size (sizes s)) in *.
  split.
  - destruct (show_camera_runtime s); nia.
  - intros ->. nia.
Qed.

Lemma tiles_below_camera_witness :
  exists s,
    session (mkGridConfig 2 3) true [] = Ok s
    /\ 55 + camera_height (sizes s) + 2 * padding
       <= y1_of (tile_bounds s 85 545
                   (mkCellData 0 0
                      (PrimFloat.one, PrimFloat.zero, PrimFloat.zero)
                      PrimFloat.one PrimFloat.zero PrimFloat.zero
                      PrimFloat.one PrimFloat.zero)).
Proof.
  eexists. split; [vm_compute; reflexivity |].
  match goal with
  | |- _ <= y1_of (tile_bounds ?s _ _ ?c) =>
      assert (Hr : reachable (mkGridConfig 2 3) true s)
        by (apply reach_init; vm_compute; reflexivity);
      destruct (tiles_below_camera _ _ s 85 c Hr ltac:(reflexivity)
                  ltac:(cbn; lia)) as (gy & Hgy & _ & Hcam)
  end.
  vm_compute in Hgy. injection Hgy as <-.
  apply Hcam. reflexivity.
Defined.

(** ** Text lines of a tile *)

Section TextLines.

Variable getTextSize : string -> Z -> float -> Z -> Z * Z.

Lemma draw_lines_from (cell x_offset y_offset : Z) (color : Color)
    (texts : list string) (j : Z) :
  0 <= j ->
  let lines :=
    draw_lines getTextSize cell x_offset y_offset color texts
      (y_offset + 10 + line_height * j) in
  List.length lines
  = Nat.min (List.length texts) (Z.to_nat ((cell - 15) / 14 - j))
  /\ Forall (line_in_tile cell x_offset y_offset) lines.
Proof.
  revert j. induction texts as [| text rest IH]; intros j Hj; cbv zeta.
  - cbn. split; [reflexivity | constructor].
  - cbn [draw_lines List.length].
    pose proof (Z.div_mod (cell - 15) 14 ltac:(lia)) as Hd.
    pose proof (Z.mod_pos_bound (cell - 15) 14 ltac:(lia)) as Hm.
    unfold line_height, text_padding in *.
    destruct (Z.gtb_spec (y_offset + 10 + 14 * j + 14) (y_offset + cell - 5))
      as [Hbreak | Hdraw].
    + split; [| constructor].
      replace (Z.to_nat ((cell - 15) / 14 - j)) with 0%nat by lia.
      rewrite Nat.min_0_r. reflexivity.
    + destruct (IH (j + 1) ltac:(lia)) as (Hlen & Hall).
      replace (y_offset + 10 + 14 * (j + 1))
        with (y_offset + 10 + 14 * j + 14) in Hlen, Hall by lia.
      split.
      * cbn [List.length]. rewrite Hlen.
        replace (Z.to_nat ((cell - 15) / 14 - j))
          with (S (Z.to_nat ((cell - 15) / 14 - (j + 1)))) by lia.
        reflexivity.
      * constructor; [| exact Hall].
        do 3 eexists. split; [reflexivity |].
        unfold line_height, text_padding. lia.
Qed.

Lemma draw_lines_spec (cell x_offset y_offset : Z) (color : Color)
    (texts : list string) :
  let lines :=
    draw_lines getTextSize cell x_offset y_offset color texts (y_offset + 10)
  in
  List.length lines = lines_drawn cell (List.length texts)
  /\ Forall (line_in_tile cell x_offset y_offset) lines
  /\ (cell < 29 -> lines = [])
  /\ (15 + 14 * Z.of_nat (List.length texts) <= cell ->
      List.length lines = List.length texts).
Proof.
  cbv zeta.
  destruct (draw_lines_from cell x_offset y_offset color texts 0 ltac:(lia))
    as (Hlen & Hall).
  unfold line_height in *.
  replace (y_offset + 10 + 14 * 0) with (y_offset + 10) in * by lia.
  rewrite Z.sub_0_r in Hlen.
  split; [exact Hlen |]. split; [exact Hall |].
  pose proof (Z.div_mod (cell - 15) 14 ltac:(lia)) as Hd.
  pose proof (Z.mod_pos_bound (cell - 15) 14 ltac:(lia)) as Hm.
  split.
  - intros Hsmall.
    assert (H0 : Z.to_nat ((cell - 15) / 14) = 0%nat) by lia.
    rewrite H0, Nat.min_0_r in Hlen.
    destruct (draw_lines _ _ _ _ _ _ _); [reflexivity | discriminate].
  - intros Hbig. rewrite Hlen. apply Nat.min_l. lia.
Qed.


Lemma draw_lines_nth_from (cell x_offset y_offset : Z) (color : Color)
    (texts : list string) (j : Z) (k : nat) (text : string) :
  0 <= j ->
  (k < Z.to_nat ((cell - 15) / 14 - j))%nat ->
  nth_error texts k = Some text ->
  nth_error
    (draw_lines getTextSize cell x_offset y_offset color texts
       (y_offset + 10 + line_height * j)) k
  = Some (PutText (fit_text getTextSize (cell - 2 * text_padding) text)
            (x_offset + text_padding,
             y_offset + 10 + line_height * (j + Z.of_nat k))
            FONT_HERSHEY_SIMPLEX float_0_35 color 1 LINE_AA)
  /\ y_offset + 10 + line_height * (j + Z.of_nat k) + line_height
     <= y_offset + cell - text_padding.
Proof.
  revert j k. induction texts as [| t rest IH]; intros j k Hj Hk Hnth.
  - destruct k; discriminate.
  - cbn [draw_lines].
    pose proof (Z.div_mod (cell - 15) 14 ltac:(lia)) as Hd.
    pose proof (Z.mod_pos_bound (cell - 15) 14 ltac:(lia)) as Hm.
    unfold line_height, text_padding in *.
    destruct (Z.gtb_spec (y_offset + 10 + 14 * j + 14) (y_offset + cell - 5))
      as [Hbreak | Hdraw]; [lia |].
    destruct k as [| k].
    + cbn in Hnth. injection Hnth as ->. cbn [nth_error].
      rewrite Z.add_0_r. split; [reflexivity | lia].
    + cbn [nth_error] in *.
      destruct (IH (j + 1) k ltac:(lia) ltac:(lia) Hnth) as (Hline & Hband).
      replace (y_offset + 10 + 14 * (j + 1))
        with (y_offset + 10 + 14 * j + 14) in Hline by lia.
      replace (j + 1 + Z.of_nat k) with (j + Z.of_nat (S k)) in * by lia.
      split; [exact Hline | exact Hband].
Qed.

Lemma draw_lines_nth (cell x_offset y_offset : Z) (color : Color)
    (texts : list string) (k : nat) (text : string) :
  (k < lines_drawn cell (List.length texts))%nat ->
  nth_error texts k = Some text ->
  nth_error
    (draw_lines getTextSize cell x_offset y_offset color texts
       (y_offset + 10)) k
  = Some (PutText (fit_text getTextSize (cell - 2 * text_padding) text)
            (x_offset + text_padding,
             y_offset + 10 + line_height * Z.of_nat k)
            FONT_HERSHEY_SIMPLEX float_0_35 color 1 LINE_AA)
  /\ y_offset + 10 + line_height * Z.of_nat k + line_height
     <= y_offset + cell - text_padding.
Proof.
  intros Hk Hnth. unfold lines_drawn in Hk.
  pose proof (draw_lines_nth_from cell x_offset y_offset color texts 0 k text
                ltac:(lia) ltac:(lia) Hnth) as H.
  unfold line_height in *.
  replace (y_offset + 10 + 14 * 0) with (y_offset + 10) in H by lia.
  rewrite Z.add_0_l in H. exact H.
Qed.

(** X15. The loop over the text lines of a tile draws exactly the first
    [min(n, (cell_size - 15) // 14)] of its [n] candidate lines, in order and
    nothing else: the [k]-th call is a [putText] of the [k]-th text as
    truncated by [fit_text], in the colour given, at
    [(x_offset + text_padding, y_offset + 10 + 14 k)], and its 14 pixels of
    line height end above the bottom inset of the tile.  No line is drawn
    when [cell_size < 29], and all [n] are when [cell_size >= 15 + 14 n]. *)
Theorem text_lines_drawn (cell x_offset y_offset : Z) (color : Color)
    (texts : list string) :
  let lines :=
    draw_lines getTextSize cell x_offset y_offset color texts (y_offset + 10)
  in
  List.length lines = lines_drawn cell (List.length texts)
  /\ (forall k text,
        (k < lines_drawn cell (List.length texts))%nat ->
        nth_error texts k = Some text ->
        nth_error lines k
        = Some (PutText (fit_text getTextSize (cell - 2 * text_padding) text)
                  (x_offset + text_padding,
                   y_offset + 10 + line_height * Z.of_nat k)
                  FONT_HERSHEY_SIMPLEX float_0_35 color 1 LINE_AA)
        /\ y_offset + 10 + line_height * Z.of_nat k + line_height
           <= y_offset + cell - text_padding)
  /\ (cell < 29 -> lines = [])
  /\ (15 + 14 * Z.of_nat (List.length texts) <= cell ->
      List.length lines = List.length texts).
Proof.
  cbv zeta.
  destruct (draw_lines_spec cell x_offset y_offset color texts)
    as (Hlen & _ & Hnone & Hall).
  split; [exact Hlen |]. split; [| split; [exact Hnone | exact Hall]].
  intros k text Hk Hnth.
  exact (draw_lines_nth cell x_offset y_offset color texts k text Hk Hnth).
Qed.

End TextLines.

(** When the body of the cell loop returns, and what it has drawn. *)
Lemma draw_cell_inv
    (getTextSize : string -> Z -> float -> Z -> Z * Z)
    (format_0f format_2f : float -> string)
    (s : DataVisualizer) (grid_x_offset : Z) (cell_data : CellData)
    (cmds : list DrawCmd) :
  draw_cell getTextSize format_0f format_2f s grid_x_offset cell_data
  = Returns cmds <->
  exists grid_y r g b,
    grid_y_offset (layout s) = Some grid_y
    /\ int_of_float
         (PrimFloat.mul (fst (fst (dominant_color cell_data)))
            (Binary64.of_int 255)) = Returns r
    /\ int_of_float
         (PrimFloat.mul (snd (fst (dominant_color cell_data)))
            (Binary64.of_int 255)) = Returns g
    /\ int_of_float
         (PrimFloat.mul (snd (dominant_color cell_data))
            (Binary64.of_int 255)) = Returns b
    /\ (let x := tile_x s grid_x_offset cell_data in
        let y := tile_y s grid_y cell_data in
        let cell := cell_size (sizes s) in
        cmds
        = Rectangle (x, y) (x + cell, y + cell) (b, g, r) (-1)
          :: Rectangle (x, y) (x + cell, y + cell) (100, 100, 100) 1
          :: draw_lines getTextSize cell x y
               (if PrimFloat.ltb float_0_5 (brightness cell_data)
                then (50, 50, 50) else (220, 220, 220))
               (cell_texts format_0f format_2f cell_data r g b) (y + 10)).
Proof.
  unfold draw_cell.
  destruct (grid_y_offset (layout s)) as [gy |].
  2:{ split; [discriminate |].
      intros (gy & r & g & b & Hgy & _). discriminate. }
  destruct (dominant_color cell_data) as [[c0 c1] c2]. cbn [fst snd].
  destruct (int_of_float (PrimFloat.mul c0 _)) as [r | e].
  2:{ split; [discriminate |].
      intros (gy' & r & g & b & _ & H & _). discriminate. }
  destruct (int_of_float (PrimFloat.mul c1 _)) as [g | e].
  2:{ split; [discriminate |].
      intros (gy' & r' & g & b & _ & _ & H & _). discriminate. }
  destruct (int_of_float (PrimFloat.mul c2 _)) as [b | e].
  2:{ split; [discriminate |].
      intros (gy' & r' & g' & b & _ & _ & _ & H & _). discriminate. }
  cbn [and_then]. cbv zeta. split.
  - intros Heq. injection Heq as <-.
    exists gy, r, g, b. repeat split; reflexivity.
  - intros (gy' & r' & g' & b' & Hgy & Hr & Hg & Hb & Hcmds).
    injection Hgy as <-. injection Hr as <-. injection Hg as <-.
    injection Hb as <-. rewrite Hcmds. reflexivity.
Qed.

(** X16. When the body of the cell loop returns, the grid offset is set and
    the three colour channels have converted, and it has made these calls
    and no others: the filled tile in the dominant colour with the
    channels reversed to (b, g, r), the grey border of thickness 1 on the
    same rectangle, and the text lines of the tile, the [k]-th being the
    [k]-th text of the cell as truncated by [fit_text], dark (50, 50, 50)
    when [brightness > 0.5] and light (220, 220, 220) otherwise, at
    [(x + text_padding, y + 10 + 14 k)] with its line height ending above
    the bottom inset; all seven texts are drawn when [cell_size >= 113]. *)
Theorem draw_cell_calls
    (getTextSize : string -> Z -> float -> Z -> Z * Z)
    (format_0f format_2f : float -> string)
    (s : DataVisualizer) (grid_x_offset : Z) (cell_data : CellData)
    (cmds : list DrawCmd) :
  draw_cell getTextSize format_0f format_2f s grid_x_offset cell_data
  = Returns cmds ->
  exists grid_y r g b lines,
    grid_y_offset (layout s) = Some grid_y
    /\ int_of_float
         (PrimFloat.mul (fst (fst (dominant_color cell_data)))
            (Binary64.of_int 255)) = Returns r
    /\ int_of_float
         (PrimFloat.mul (snd (fst (dominant_color cell_data)))
            (Binary64.of_int 255)) = Returns g
    /\ int_of_float
         (PrimFloat.mul (snd (dominant_color cell_data))
            (Binary64.of_int 255)) = Returns b
    /\ (let x := tile_x s grid_x_offset cell_data in
        let y := tile_y s grid_y cell_data in
        let cell := cell_size (sizes s) in
        let text_color : Color :=
          if PrimFloat.ltb float_0_5 (brightness cell_data)
          then (50, 50, 50) else (220, 220, 220) in
        let texts := cell_texts format_0f format_2f cell_data r g b in
        cmds = Rectangle (x, y) (x + cell, y + cell) (b, g, r) (-1)
               :: Rectangle (x, y) (x + cell, y + cell) (100, 100, 100) 1
               :: lines
        /\ rectangle_bounds
             (Rectangle (x, y) (x + cell, y + cell) (b, g, r) (-1))
           = Some (tile_bounds s grid_x_offset grid_y cell_data)
        /\ List.length texts = 7%nat
        /\ List.length lines = lines_drawn cell 7
        /\ (113 <= cell -> List.length lines = 7%nat)
        /\ (forall k text,
              (k < lines_drawn cell 7)%nat ->
              nth_error texts k = Some text ->
              nth_error lines k
              = Some (PutText
                        (fit_text getTextSize (cell - 2 * text_padding) text)
                        (x + text_padding, y + 10 + line_height * Z.of_nat k)
                        FONT_HERSHEY_SIMPLEX float_0_35 text_color 1 LINE_AA)
              /\ y + 10 + line_height * Z.of_nat k + line_height
                 <= y + cell - text_padding)).
Proof.
  intros Hdraw.
  apply draw_cell_inv in Hdraw.
  destruct Hdraw as (gy & r & g & b & Hgy & Hr & Hg & Hb & Hcmds).
  exists gy, r, g, b. eexists.
  split; [exact Hgy |]. split; [exact Hr |]. split; [exact Hg |].
  split; [exact Hb |]. cbv zeta in *.
  split; [exact Hcmds |]. split; [reflexivity |]. split; [reflexivity |].
  match goal with
  | |- context [draw_lines ?gts ?cell ?x ?y ?col ?texts (?y + 10)] =>
      destruct (draw_lines_spec gts cell x y col texts)
        as (Hlen & _ & _ & Hfull);
      pose proof (draw_lines_nth gts cell x y col texts) as Hnth
  end.
  split; [exact Hlen |]. split.
  - intros Hbig. apply Hfull. cbn. lia.
  - intros k text Hk Htext. apply Hnth; assumption.
Qed.

Lemma draw_cell_calls_witness :
  exists s cmds,
    session (mkGridConfig 2 3) true [] = Ok s
    /\ draw_cell (fun _ _ _ _ => (40, 8)) (fun _ => "x"%string)
         (fun _ => "y"%string) s 85
         (mkCellData 0 0 (PrimFloat.one, PrimFloat.zero, PrimFloat.zero)
            PrimFloat.one PrimFloat.zero PrimFloat.zero PrimFloat.one
            PrimFloat.zero)
       = Returns cmds
    /\ nth 0 cmds (Circle (0, 0) 0 (0, 0, 0) 0)
       = Rectangle (95, 555) (245, 705) (0, 0, 255) (-1)
    /\ List.length cmds = 9%nat.
Proof.
  eexists. eexists. split; [vm_compute; reflexivity |].
  split; [vm_compute; reflexivity |].
  match goal with
  | |- nth 0 ?cmds _ = _ /\ _ =>
      assert (Hdraw :
        draw_cell (fun _ _ _ _ => (40, 8)) (fun _ => "x"%string)
          (fun _ => "y"%string)
          (mkDataVisualizer (mkGridConfig 2 3) false true true
             (mkSizes 150 640 480 490 330)
             (mkLayout 10 (Some 55) (Some 545) 885 660
                (110, 10, 250, 45) (260, 10, 400, 45) (410, 10, 550, 45))
             None None) 85
          (mkCellData 0 0 (PrimFloat.one, PrimFloat.zero, PrimFloat.zero)
             PrimFloat.one PrimFloat.zero PrimFloat.zero PrimFloat.one
             PrimFloat.zero)
        = Returns cmds) by (vm_compute; reflexivity);
      destruct (draw_cell_calls _ _ _ _ _ _ _ Hdraw)
        as (gy & r & g & b & lines & _ & _ & _ & _
            & Hcmds & _ & _ & _ & Hfull & _)
  end.
  split; [vm_compute; reflexivity |].
  rewrite Hcmds. cbn [List.length]. rewrite Hfull; [reflexivity |].
  cbn. lia.
Defined.

(** X17. How many of the seven text lines a tile shows is decided by the
    number of rows alone: all seven exactly when [rows <= 3], and none at all
    exactly when [rows >= 26]. *)
Theorem text_lines_by_rows (cfg : GridConfig) (sc : bool)
    (s : DataVisualizer) :
  reachable cfg sc s ->
  (lines_drawn (cell_size (sizes s)) 7 = 7%nat <-> rows cfg <= 3)
  /\ (lines_drawn (cell_size (sizes s)) 7 = 0%nat <-> 26 <= rows cfg).
Proof.
  intros Hr.
  destruct (reachable_invariant _ _ _ Hr) as (_ & Hsz & _).
  destruct (sizes_closed_form cfg) as (sz & Hsz' & _ & _ & Hcase).
  rewrite Hsz in Hsz'. injection Hsz' as <-.
  unfold lines_drawn.
  set (cell := cell_size (sizes s)) in *.
  pose proof (Z.div_mod (cell - 15) 14 ltac:(lia)) as Hd.
  pose proof (Z.mod_pos_bound (cell - 15) 14 ltac:(lia)) as Hm.
  assert (Hcell : (rows cfg <= 2 /\ cell = 150)
                  \/ (3 <= rows cfg
                      /\ cell = 135000 / (565 + 160 * rows cfg))).
  { destruct Hcase as [(H1 & H2 & _) | (H1 & H2 & _)]; [left | right]; auto. }
  clear Hcase.
  destruct Hcell as [(Hrows & Hc) | (Hrows & Hc)].
  - rewrite Hc in *. split; split; intros; lia.
  - set (t := 565 + 160 * rows cfg) in *.
    assert (Ht : 0 < t) by (unfold t; lia).
    pose proof (Z.div_mod 135000 t ltac:(lia)) as Hd2.
    pose proof (Z.mod_pos_bound 135000 t Ht) as Hm2.
    rewrite <- Hc in Hd2.
    assert (H7 : 113 <= cell <-> rows cfg <= 3) by (unfold t in *; nia).
    assert (H0 : cell < 29 <-> 26 <= rows cfg) by (unfold t in *; nia).
    assert (Hpos : 0 <= cell) by nia.
    split; split; intros H; try apply H7; try apply H0.
    + destruct (Z.le_gt_cases 113 cell) as [Hle | Hgt]; [exact Hle |].
      assert ((cell - 15) / 14 <= 6) by lia. lia.
    + apply H7 in H. assert (7 <= (cell - 15) / 14) by lia. lia.
    + destruct (Z.lt_ge_cases cell 29) as [Hlt | Hge]; [exact Hlt |].
      assert (1 <= (cell - 15) / 14) by lia. lia.
    + apply H0 in H. assert ((cell - 15) / 14 <= 0) by lia. lia.
Qed.

Lemma text_lines_by_rows_witness :
  exists s,
    session (mkGridConfig 4 3) true [] = Ok s
    /\ cell_size (sizes s) = 112
    /\ lines_drawn (cell_size (sizes s)) 7 <> 7%nat.
Proof.
  eexists. split; [vm_compute; reflexivity |].
  split; [vm_compute; reflexivity |].
  match goal with
  | |- lines_drawn (cell_size (sizes ?s)) 7 <> _ =>
      assert (Hr : reachable (mkGridConfig 4 3) true s)
        by (apply reach_init; vm_compute; reflexivity);
      destruct (text_lines_by_rows _ _ s Hr) as (H7 & _)
  end.
  intros H. apply H7 in H. cbn in H. lia.
Defined.

(** ** Truncation of a text line *)

Lemma string_length_append (a b : string) :
  String.length (a ++ b) = (String.length a + String.length b)%nat.
Proof.
  induction a as [| c a IH]; cbn; [reflexivity | rewrite IH; reflexivity].
Qed.

Lemma string_append_assoc (a b c : string) :
  ((a ++ b) ++ c)%string = (a ++ (b ++ c))%string.
Proof.
  induction a as [| x a IH]; cbn; [reflexivity | rewrite IH; reflexivity].
Qed.

Lemma string_append_nil_r (a : string) : (a ++ "")%string = a.
Proof.
  induction a as [| x a IH]; cbn; [reflexivity | rewrite IH; reflexivity].
Qed.

Lemma drop_last_snoc (text : string) :
  text <> ""%string ->
  exists c, text = (drop_last text ++ String c "")%string.
Proof.
  induction text as [| x text IH]; intros Hne; [congruence |].
  destruct text as [| y text].
  - exists x. reflexivity.
  - destruct IH as (c & Hc); [discriminate |].
    exists c. cbn [drop_last append] in *. rewrite <- Hc. reflexivity.
Qed.

Lemma length_drop_last (text : string) :
  String.length (drop_last text) = Nat.pred (String.length text).
Proof.
  induction text as [| x text IH]; [reflexivity |].
  destruct text as [| y text]; [reflexivity |].
  cbn [drop_last String.length] in *. rewrite IH. reflexivity.
Qed.

Section Truncation.

Variable getTextSize : string -> Z -> float -> Z -> Z * Z.
Variable max_text_width : Z.


Lemma shrink_text_spec (fuel : nat) (text : string) :
  (String.length text <= fuel)%nat ->
  let kept := shrink_text getTextSize fuel max_text_width text in
  exists rest,
    text = (kept ++ rest)%string
    /\ ((String.length text <= 3)%nat -> kept = text)
    /\ ((3 <= String.length text)%nat -> (3 <= String.length kept)%nat)
    /\ ((3 < String.length kept)%nat ->
        line_width getTextSize (kept ++ "...") <= max_text_width)
    /\ (rest <> ""%string ->
        exists c rest',
          rest = String c rest'
          /\ max_text_width
             < line_width getTextSize ((kept ++ String c "") ++ "...")).
Proof.
  revert text. induction fuel as [| fuel IH]; intros text Hfuel; cbv zeta.
  - destruct text; [| cbn in Hfuel; lia].
    exists ""%string. cbn. repeat split; auto; try lia. congruence.
  - cbn [shrink_text].
    destruct (Z.ltb_spec 3 (Z.of_nat (String.length text))) as [Hlong | Hshort];
      cbn [andb].
    + change (fst (getTextSize (text ++ "...") FONT_HERSHEY_SIMPLEX
                     float_0_35 1))
        with (line_width getTextSize (text ++ "...")).
      destruct (Z.gtb_spec (line_width getTextSize (text ++ "..."))
                  max_text_width) as [Hwide | Hfits].
      * destruct (drop_last_snoc text) as (c & Hc).
        { destruct text; [cbn in Hlong; lia | discriminate]. }
        pose proof (length_drop_last text) as Hlen.
        destruct (IH (drop_last text) ltac:(lia))
          as (rest0 & Hsplit & _ & Hmin & Hfit & Hmax).
        exists (rest0 ++ String c "")%string.
        split; [rewrite <- string_append_assoc, <- Hsplit; exact Hc |].
        split; [lia |].
        split; [intros _; apply Hmin; lia |].
        split; [exact Hfit |].
        intros _. destruct rest0 as [| c0 rest0'].
        -- exists c, ""%string. split; [reflexivity |].
           rewrite string_append_nil_r in Hsplit.
           rewrite <- Hsplit, <- Hc. lia.
        -- destruct (Hmax ltac:(discriminate)) as (c1 & r1 & Heq & Hw).
           injection Heq as <- <-.
           exists c0, (rest0' ++ String c "")%string.
           split; [reflexivity | exact Hw].
      * exists ""%string. rewrite string_append_nil_r.
        repeat split; auto; try lia. congruence.
    + exists ""%string. rewrite string_append_nil_r.
      repeat split; auto; try lia. congruence.
Qed.

(** X18. A text that fits is passed on unchanged. A text that is too wide
    becomes a prefix of itself followed by three dots; the prefix keeps all
    characters of a text of at most three and at least three otherwise; as
    long as more than three characters are kept the result fits, and a
    result cut down to three characters is used whether it fits or not;
    and nothing is cut that would have fitted: when characters were dropped,
    the prefix one character longer, with its dots, was too wide. *)
Theorem fit_text_spec (text : string) :
  let out := fit_text getTextSize max_text_width text in
  (line_width getTextSize text <= max_text_width -> out = text)
  /\ (max_text_width < line_width getTextSize text ->
      exists kept rest,
        out = (kept ++ "...")%string
        /\ text = (kept ++ rest)%string
        /\ ((String.length text <= 3)%nat -> kept = text)
        /\ ((3 <= String.length text)%nat -> (3 <= String.length kept)%nat)
        /\ ((3 < String.length kept)%nat ->
            line_width getTextSize out <= max_text_width)
        /\ (rest <> ""%string ->
            exists c rest',
              rest = String c rest'
              /\ max_text_width
                 < line_width getTextSize ((kept ++ String c "") ++ "..."))).
Proof.
  cbv zeta. unfold fit_text.
  change (fst (getTextSize text FONT_HERSHEY_SIMPLEX float_0_35 1))
    with (line_width getTextSize text).
  destruct (Z.gtb_spec (line_width getTextSize text) max_text_width)
    as [Hwide | Hfits].
  - split; [lia |]. intros _.
    destruct (shrink_text_spec (String.length text) text (le_n _))
      as (rest & Hsplit & Hshort & Hmin & Hfit & Hmax).
    exists (shrink_text getTextSize (String.length text) max_text_width text),
      rest.
    repeat split; assumption.
  - split; [reflexivity | lia].
Qed.

End Truncation.

(** ** [render] and [show] *)

Section RenderShow.

Variable getTextSize : string -> Z -> float -> Z -> Z * Z.
Variable format_0f : float -> string.
Variable format_2f : float -> string.

Lemma draw_cells_length (s : DataVisualizer) (grid_x_offset : Z)
    (cells_data : list CellData) (cmds : list DrawCmd) :
  draw_cells getTextSize format_0f format_2f s grid_x_offset cells_data
  = Returns cmds ->
  List.length cmds
  = (List.length cells_data
     * (2 + lines_drawn (cell_size (sizes s)) 7))%nat.
Proof.
  revert cmds. induction cells_data as [| c rest IH]; intros cmds.
  - cbn. intros H. injection H as <-. reflexivity.
  - cbn [draw_cells].
    destruct (draw_cell getTextSize format_0f format_2f s grid_x_offset c)
      as [one | e] eqn:Hone; [| discriminate].
    destruct (draw_cells getTextSize format_0f format_2f s grid_x_offset rest)
      as [more | e] eqn:Hmore; [| discriminate].
    cbn [and_then]. intros H. injection H as <-.
    apply draw_cell_inv in Hone.
    destruct Hone as (gy & r & g & b & _ & _ & _ & _ & Hcmds).
    cbv zeta in Hcmds.
    rewrite length_app, (IH more eq_refl), Hcmds.
    cbn [List.length].
    rewrite (proj1 (draw_lines_spec _ _ _ _ _ _)).
    unfold cell_texts. cbn [List.length]. lia.
Qed.

Lemma draw_buttons_length (s : DataVisualizer) :
  List.length (_draw_buttons getTextSize s) = 9%nat.
Proof.
  pose proof (f_equal (@List.length _) (draw_buttons_rectangles getTextSize s))
    as H.
  rewrite length_map in H. exact H.
Qed.

Lemma draw_cells_inv (s : DataVisualizer) (grid_x_offset : Z)
    (cells_data : list CellData) (cmds : list DrawCmd) :
  draw_cells getTextSize format_0f format_2f s grid_x_offset cells_data
  = Returns cmds <->
  exists per_cell,
    Forall2
      (fun c l =>
         draw_cell getTextSize format_0f format_2f s grid_x_offset c
         = Returns l)
      cells_data per_cell
    /\ cmds = List.concat per_cell.
Proof.
  revert cmds. induction cells_data as [| c rest IH]; intros cmds.
  - cbn [draw_cells]. split.
    + intros H. injection H as <-. exists []. split; [constructor | reflexivity].
    + intros (per_cell & Hall & ->). inversion Hall. reflexivity.
  - cbn [draw_cells]. split.
    + intros H.
      destruct (draw_cell getTextSize format_0f format_2f s grid_x_offset c)
        as [one | e] eqn:Hone; cbn [and_then] in H; [| discriminate].
      destruct (draw_cells getTextSize format_0f format_2f s grid_x_offset
                  rest) as [more | e]; cbn [and_then] in H; [| discriminate].
      injection H as <-.
      destruct (proj1 (IH more) eq_refl) as (pc & Hpc & ->).
      exists (one :: pc). split; [constructor; [exact Hone | exact Hpc] |].
      reflexivity.
    + intros (per_cell & Hall & ->).
      inversion Hall as [| c' l cs ls Hc Hrest]; subst.
      rewrite Hc. cbn [and_then].
      rewrite (proj2 (IH (List.concat ls))
                 (ex_intro _ ls (conj Hrest eq_refl))).
      reflexivity.
Qed.

Lemma render_inv (s : DataVisualizer) (cells_data : list CellData)
    (camera_frame : option image) (canvas : image) (cmds : list DrawCmd) :
  render getTextSize format_0f format_2f s cells_data camera_frame
  = Returns (canvas, cmds) <->
  render_camera s camera_frame = Ok canvas
  /\ exists per_cell,
      (if show_grid_runtime s
       then Forall2
              (fun c l =>
                 draw_cell getTextSize format_0f format_2f s
                   (floordiv (width (layout s) - grid_width (sizes s)) 2) c
                 = Returns l)
              cells_data per_cell
       else per_cell = [])
      /\ cmds = (List.concat per_cell ++ _draw_buttons getTextSize s)%list.
Proof.
  unfold render. split.
  - intros H.
    destruct (render_camera s camera_frame) as [cv | e];
      cbn [of_result and_then] in H; [| discriminate].
    destruct (show_grid_runtime s).
    + destruct (draw_cells getTextSize format_0f format_2f s _ cells_data)
        as [grid | e] eqn:Hgrid; cbn [and_then] in H; [| discriminate].
      injection H as <- <-. split; [reflexivity |].
      apply draw_cells_inv in Hgrid. destruct Hgrid as (pc & Hpc & ->).
      exists pc. split; [exact Hpc | reflexivity].
    + cbn [and_then] in H. injection H as <- <-.
      split; [reflexivity |]. exists []. split; reflexivity.
  - intros (Hcv & per_cell & Hall & ->). rewrite Hcv.
    cbn [of_result and_then].
    destruct (show_grid_runtime s).
    + rewrite (proj2 (draw_cells_inv s _ cells_data (List.concat per_cell))
                 (ex_intro _ per_cell (conj Hall eq_refl))).
      reflexivity.
    + subst per_cell. reflexivity.
Qed.

(** X19. [render] returns exactly when the camera step returns and, with
    the grid shown, the body of the cell loop returns for every cell.  The
    calls it has then made on the canvas of the camera step are, in this
    order, the calls of each cell in the order of [cells_data] and then the
    nine calls of the three buttons, and nothing else: with the grid shown
    that is [len(cells_data) * (2 + lines per tile) + 9] calls; with the grid
    hidden it is the nine button calls, and [cells_data] is not read. *)
Theorem render_calls (s : DataVisualizer) (cells_data : list CellData)
    (camera_frame : option image) :
  (forall canvas cmds,
     render getTextSize format_0f format_2f s cells_data camera_frame
     = Returns (canvas, cmds) <->
     render_camera s camera_frame = Ok canvas
     /\ exists per_cell,
         (if show_grid_runtime s
          then Forall2
                 (fun c l =>
                    draw_cell getTextSize format_0f format_2f s
                      (floordiv (width (layout s) - grid_width (sizes s)) 2) c
                    = Returns l)
                 cells_data per_cell
          else per_cell = [])
         /\ cmds = (List.concat per_cell ++ _draw_buttons getTextSize s)%list)
  /\ (forall canvas cmds,
       render getTextSize format_0f format_2f s cells_data camera_frame
       = Returns (canvas, cmds) ->
       List.length cmds
       = ((if show_grid_runtime s
           then List.length cells_data
                * (2 + lines_drawn (cell_size (sizes s)) 7)
           else 0) + 9)%nat)
  /\ (show_grid_runtime s = false ->
      forall canvas,
        render_camera s camera_frame = Ok canvas ->
        render getTextSize format_0f format_2f s cells_data camera_frame
        = Returns (canvas, _draw_buttons getTextSize s)).
Proof.
  split; [intros canvas cmds; apply render_inv |]. split.
  - intros canvas cmds Hrender.
    apply render_inv in Hrender.
    destruct Hrender as (_ & per_cell & Hall & ->).
    rewrite length_app, draw_buttons_length. f_equal.
    destruct (show_grid_runtime s).
    + apply draw_cells_length with (grid_x_offset :=
        floordiv (width (layout s) - grid_width (sizes s)) 2).
      apply draw_cells_inv. exists per_cell. split; [exact Hall | reflexivity].
    + subst per_cell. reflexivity.
  - intros Hhidden canvas Hcam. apply render_inv.
    split; [exact Hcam |]. exists []. rewrite Hhidden.
    split; reflexivity.
Qed.

Lemma show_cases (s : DataVisualizer) (cells_data : list CellData)
    (camera_frame : option image) (p : presented) :
  (exists e,
      render getTextSize format_0f format_2f s cells_data camera_frame
      = Raises e
      /\ show getTextSize format_0f format_2f s cells_data camera_frame p
         = Raises e)
  \/ (exists r,
         render getTextSize format_0f format_2f s cells_data camera_frame
         = Returns r
         /\ show getTextSize format_0f format_2f s cells_data camera_frame p
            = Returns
                (match p with
                 | PresentFailed => set_should_close s
                 | Visibility v =>
                     if PrimFloat.ltb v PrimFloat.one
                     then set_should_close s else s
                 end)).
Proof.
  unfold show.
  destruct (render _ _ _ s cells_data camera_frame) as [r | e].
  - right. exists r. split; [reflexivity |]. cbn [and_then].
    destruct p as [| v]; [reflexivity |].
    destruct (PrimFloat.ltb v PrimFloat.one); reflexivity.
  - left. exists e. split; reflexivity.
Qed.

(** X20. [show] changes nothing but [should_close], and only towards true:
    when it returns, the flags, sizes, layout and pointer position are those
    it started with, a closing state stays closing, the new state is again
    reachable, and [should_close] is set when presenting failed or the window
    reported a visibility below 1. *)
Theorem show_effect (cfg : GridConfig) (sc : bool) (s s' : DataVisualizer)
    (cells_data : list CellData) (camera_frame : option image)
    (p : presented) :
  reachable cfg sc s ->
  show getTextSize format_0f format_2f s cells_data camera_frame p
  = Returns s' ->
  reachable cfg sc s'
  /\ (s' = s \/ s' = set_should_close s)
  /\ show_camera_runtime s' = show_camera_runtime s
  /\ show_grid_runtime s' = show_grid_runtime s
  /\ sizes s' = sizes s /\ layout s' = layout s
  /\ mouse_x s' = mouse_x s /\ mouse_y s' = mouse_y s
  /\ (should_close s = true -> should_close s' = true)
  /\ (p = PresentFailed -> should_close s' = true)
  /\ (forall v, p = Visibility v -> PrimFloat.ltb v PrimFloat.one = true ->
        should_close s' = true)
  /\ (forall v, p = Visibility v -> PrimFloat.ltb v PrimFloat.one = false ->
        s' = s).
Proof.
  intros Hr Hshow.
  destruct (show_cases s cells_data camera_frame p)
    as [(e & _ & He) | (r & _ & Hs)]; [congruence |].
  rewrite Hs in Hshow. injection Hshow as <-.
  destruct p as [| v].
  - split; [apply (reach_show _ _ s false Hr) |].
    fields. repeat split; auto; intros; discriminate.
  - destruct (PrimFloat.ltb v PrimFloat.one) eqn:Hv.
    + split; [apply (reach_show _ _ s false Hr) |].
      fields. repeat split; auto; intros; try discriminate.
      match goal with H : Visibility _ = Visibility _ |- _ =>
        injection H as <- end. congruence.
    + split; [exact Hr |].
      repeat split; auto; intros; try discriminate.
      match goal with H : Visibility _ = Visibility _ |- _ =>
        injection H as <- end. congruence.
Qed.

End RenderShow.

Lemma show_effect_witness :
  exists s s',
    session (mkGridConfig 100 1) true [] = Ok s
    /\ show (fun _ _ _ _ => (40, 8)) (fun _ => "x"%string)
         (fun _ => "y"%string) s [] None PresentFailed = Returns s'
    /\ should_close s = false
    /\ should_close s' = true.
Proof.
  eexists. eexists. split; [vm_compute; reflexivity |].
  match goal with
  | |- show ?g ?f0 ?f2 ?s ?cells ?frame ?p = Returns ?s' /\ _ =>
      assert (Hshow : show g f0 f2 s cells frame p = Returns (set_should_close s))
        by (vm_compute; reflexivity);
      assert (Hr : reachable (mkGridConfig 100 1) true s)
        by (apply reach_init; vm_compute; reflexivity);
      destruct (show_effect g f0 f2 _ _ s _ cells frame p Hr Hshow)
        as (_ & _ & _ & _ & _ & _ & _ & _ & _ & Hfail & _)
  end.
  split; [exact Hshow |].
  split; [reflexivity | apply Hfail; reflexivity].
Defined.

(** ** Errors of the camera step and of the colours *)

Lemma render_camera_resize_raises (cfg : GridConfig) (sc : bool)
    (s : DataVisualizer) (frame : image) :
  reachable cfg sc s ->
  0 <= rows cfg ->
  show_camera_runtime s = true ->
  img_empty frame = true
  \/ camera_width (sizes s) <= 0 \/ camera_height (sizes s) <= 0 ->
  render_camera s (Some frame) = Raise Cv2Error.
Proof.
  intros Hr Hrows Hshow Hbad.
  destruct (camera_block_inside_canvas cfg sc s Hrows Hr Hshow)
    as (_ & Hy0 & Hy1 & Hx0 & Hx1).
  destruct (reachable_invariant _ _ _ Hr) as (_ & Hsz & _).
  destruct (sizes_nonneg _ _ Hsz) as (_ & Hcw & Hch).
  unfold render_camera.
  rewrite (np_filled_ok _ _ background) by lia.
  rewrite Hshow. cbn [bind].
  unfold cv2_resize.
  replace (img_empty frame || (camera_width (sizes s) <=? 0)
           || (camera_height (sizes s) <=? 0)) with true; [reflexivity |].
  symmetry. rewrite !orb_true_iff, !Z.leb_le. tauto.
Qed.

(** X21. The [try] of [show] does not cover [render]: in a reachable state
    with the camera shown, an empty frame makes [show] raise [cv2.error]
    whatever the cells and however presenting would have gone, and
    [should_close] is not set. *)
Theorem show_raises_on_empty_frame
    (getTextSize : string -> Z -> float -> Z -> Z * Z)
    (format_0f format_2f : float -> string)
    (cfg : GridConfig) (sc : bool) (s : DataVisualizer) (frame : image)
    (cells_data : list CellData) (p : presented) :
  reachable cfg sc s ->
  0 <= rows cfg ->
  show_camera_runtime s = true ->
  img_empty frame = true ->
  show getTextSize format_0f format_2f s cells_data (Some frame) p
  = Raises (Known Cv2Error).
Proof.
  intros Hr Hrows Hshow Hempty.
  unfold show, render.
  rewrite (render_camera_resize_raises cfg sc s frame Hr Hrows Hshow)
    by (left; exact Hempty).
  reflexivity.
Qed.

Lemma show_raises_on_empty_frame_witness :
  exists s,
    session (mkGridConfig 100 1) true [] = Ok s
    /\ show (fun _ _ _ _ => (40, 8)) (fun _ => "x"%string)
         (fun _ => "y"%string) s [] (Some [[]])
         (Visibility PrimFloat.one)
       = Raises (Known Cv2Error).
Proof.
  eexists. split; [vm_compute; reflexivity |].
  match goal with
  | |- show _ _ _ ?s _ _ _ = _ =>
      assert (Hr : reachable (mkGridConfig 100 1) true s)
        by (apply reach_init; vm_compute; reflexivity);
      apply (show_raises_on_empty_frame _ _ _ _ _ s [[]] [] _ Hr)
  end.
  - cbn. lia.
  - reflexivity.
  - reflexivity.
Defined.

(** X22. From 2697 rows on the camera block has height 0, and while the
    camera is shown every render that is passed a frame raises [cv2.error]:
    the frame cannot be resized to an empty size. *)
Theorem camera_unusable_from_2697_rows (cfg : GridConfig) (sc : bool)
    (s : DataVisualizer) (frame : image) :
  reachable cfg sc s ->
  2697 <= rows cfg ->
  show_camera_runtime s = true ->
  camera_height (sizes s) = 0
  /\ render_camera s (Some frame) = Raise Cv2Error.
Proof.
  intros Hr Hrows Hshow.
  destruct (reachable_invariant _ _ _ Hr) as (_ & Hsz & _).
  destruct (sizes_closed_form cfg) as (sz & Hsz' & _ & _ & Hcase).
  rewrite Hsz in Hsz'. injection Hsz' as <-.
  assert (Hzero : camera_height (sizes s) = 0).
  { destruct Hcase as [(Hle & _) | (_ & _ & _ & ->)]; [lia |].
    apply Z.div_small. lia. }
  split; [exact Hzero |].
  apply (render_camera_resize_raises cfg sc s frame Hr ltac:(lia) Hshow).
  right. right. lia.
Qed.

Lemma camera_unusable_from_2697_rows_witness :
  exists s,
    session (mkGridConfig 2697 1) true [] = Ok s
    /\ camera_width (sizes s) = 1
    /\ render_camera s (Some [[(1, 2, 3)]]) = Raise Cv2Error.
Proof.
  eexists. split; [vm_compute; reflexivity |].
  split; [vm_compute; reflexivity |].
  match goal with
  | |- render_camera ?s _ = _ =>
      assert (Hr : reachable (mkGridConfig 2697 1) true s)
        by (apply reach_init; vm_compute; reflexivity);
      apply (camera_unusable_from_2697_rows _ _ s _ Hr)
  end.
  - cbn. lia.
  - reflexivity.
Defined.

(** X23. A dominant colour whose first channel is NaN or an infinity is not
    drawable: with the grid shown and the camera step done, [render] raises
    [ValueError] for NaN and [OverflowError] for an infinity when it reaches
    the first such cell, here the first of the list. *)
Theorem render_rejects_non_finite_color
    (getTextSize : string -> Z -> float -> Z -> Z * Z)
    (format_0f format_2f : float -> string)
    (cfg : GridConfig) (sc : bool) (s : DataVisualizer)
    (cell_data : CellData) (rest : list CellData)
    (camera_frame : option image) (canvas : image) :
  reachable cfg sc s ->
  show_grid_runtime s = true ->
  render_camera s camera_frame = Ok canvas ->
  (fst (fst (dominant_color cell_data)) = PrimFloat.nan ->
   render getTextSize format_0f format_2f s (cell_data :: rest) camera_frame
   = Raises (Known ValueError))
  /\ (fst (fst (dominant_color cell_data)) = PrimFloat.infinity
      \/ fst (fst (dominant_color cell_data)) = PrimFloat.neg_infinity ->
      render getTextSize format_0f format_2f s (cell_data :: rest)
        camera_frame
      = Raises OverflowError).
Proof.
  intros Hr Hshow Hcam.
  destruct (grid_block_inside_canvas cfg sc s Hr Hshow) as (gy & Hgy & _).
  unfold render. rewrite Hcam, Hshow. cbn [of_result and_then draw_cells].
  unfold draw_cell. rewrite Hgy.
  destruct (dominant_color cell_data) as [[c0 c1] c2]. cbn [fst].
  split.
  - intros ->.
    replace (int_of_float (PrimFloat.mul PrimFloat.nan (Binary64.of_int 255)))
      with (@Raises Z (Known ValueError)) by (vm_compute; reflexivity).
    reflexivity.
  - intros [-> | ->].
    + replace (int_of_float
                 (PrimFloat.mul PrimFloat.infinity (Binary64.of_int 255)))
        with (@Raises Z OverflowError) by (vm_compute; reflexivity).
      reflexivity.
    + replace (int_of_float
                 (PrimFloat.mul PrimFloat.neg_infinity (Binary64.of_int 255)))
        with (@Raises Z OverflowError) by (vm_compute; reflexivity).
      reflexivity.
Qed.

Lemma render_rejects_non_finite_color_witness :
  exists s,
    session (mkGridConfig 100 1) true [] = Ok s
    /\ render (fun _ _ _ _ => (40, 8)) (fun _ => "x"%string)
         (fun _ => "y"%string) s
         [mkCellData 0 0 (PrimFloat.nan, PrimFloat.zero, PrimFloat.zero)
            PrimFloat.one PrimFloat.zero PrimFloat.zero PrimFloat.one
            PrimFloat.zero] None
       = Raises (Known ValueError).
Proof.
  eexists. split; [vm_compute; reflexivity |].
  match goal with
  | |- render ?g ?f0 ?f2 ?s (?c :: ?rest) ?frame = _ =>
      assert (Hr : reachable (mkGridConfig 100 1) true s)
        by (apply reach_init; vm_compute; reflexivity);
      assert (Hcam : render_camera s frame
                     = Ok (repeat (repeat (background, background, background)
                                     (Z.to_nat (width (layout s))))
                             (Z.to_nat (height (layout s)))))
        by (unfold render_camera;
            rewrite np_filled_ok by (vm_compute; discriminate);
            reflexivity);
      destruct (render_rejects_non_finite_color g f0 f2 _ _ s c rest frame
                  _ Hr ltac:(reflexivity) Hcam) as (Hnan & _)
  end.
  apply Hnan. reflexivity.
Defined.

(** ** Loading screen *)

(** X24. [show_loading_screen] never raises. It draws the message and then
    three dots of radius 5 on a 500 x 300 background canvas: the dots sit 40
    pixels below the text origin, 30 pixels apart around the middle column
    250, so they neither touch nor leave the canvas sideways; a message no
    wider than the canvas is centred in it to within one pixel, and for a
    text height up to 209 the dots stay inside the canvas. *)
Theorem loading_screen_layout
    (getTextSize : string -> Z -> float -> Z -> Z * Z) (message : string) :
  let tw := fst (getTextSize message FONT_HERSHEY_SIMPLEX float_0_8 1) in
  let th := snd (getTextSize message FONT_HERSHEY_SIMPLEX float_0_8 1) in
  exists canvas text_x text_y,
    show_loading_screen getTextSize message
    = Returns
        (canvas,
         [ PutText message (text_x, text_y) FONT_HERSHEY_SIMPLEX float_0_8
             (200, 200, 200) 1 LINE_AA;
           Circle (220, text_y + 40) 5 (100, 100, 200) (-1);
           Circle (250, text_y + 40) 5 (100, 100, 200) (-1);
           Circle (280, text_y + 40) 5 (100, 100, 200) (-1) ])
    /\ img_height canvas = loading_height
    /\ img_width canvas = loading_width
    /\ (forall y x p, pixel_at canvas y x = Some p -> p = (30, 30, 30))
    /\ 250 = loading_width / 2
    /\ 0 <= 220 - 5 /\ 280 + 5 < loading_width
    /\ (0 <= tw <= loading_width ->
        0 <= text_x /\ text_x + tw <= loading_width
        /\ 0 <= (loading_width - (text_x + tw)) - text_x <= 1)
    /\ (0 <= th <= 209 ->
        0 <= text_y + 40 - 5 /\ text_y + 40 + 5 < loading_height).
Proof.
  cbv zeta. unfold show_loading_screen.
  rewrite (np_filled_ok loading_height loading_width 30)
    by (unfold loading_height, loading_width; lia).
  cbn [of_result and_then map].
  do 3 eexists. split; [reflexivity |].
  unfold loading_height, loading_width, floordiv.
  set (tw := fst _). set (th := snd _).
  pose proof (Z.div_mod (500 - tw) 2 ltac:(lia)).
  pose proof (Z.mod_pos_bound (500 - tw) 2 ltac:(lia)).
  pose proof (Z.div_mod (300 + th) 2 ltac:(lia)).
  pose proof (Z.mod_pos_bound (300 + th) 2 ltac:(lia)).
  split; [unfold img_height; rewrite repeat_length; lia |].
  split; [reflexivity |].
  split; [intros y x p; apply pixel_at_filled_inv |].
  repeat split; try reflexivity; try lia.
Qed.

(** ** The camera step on a frame *)

Lemma tabulate_length {A : Type} (f : Z -> A) (from : Z) (n : nat) :
  List.length (tabulate f from n) = n.
Proof.
  revert from. induction n as [| n IH]; intros from; cbn; [reflexivity |].
  rewrite IH. reflexivity.
Qed.

Lemma nth_error_tabulate {A : Type} (f : Z -> A) (from : Z) (n k : nat) :
  (k < n)%nat ->
  nth_error (tabulate f from n) k = Some (f (from + Z.of_nat k)).
Proof.
  revert from k. induction n as [| n IH]; intros from k Hk; [lia |].
  destruct k as [| k]; cbn [tabulate nth_error].
  - rewrite Z.add_0_r. reflexivity.
  - rewrite IH by lia. f_equal. f_equal. lia.
Qed.

Lemma mapi_from_length {A : Type} (f : Z -> A -> A) (i : Z) (l : list A) :
  List.length (mapi_from f i l) = List.length l.
Proof.
  revert i. induction l as [| a l IH]; intros i; cbn; [reflexivity |].
  rewrite IH. reflexivity.
Qed.

Lemma nth_error_mapi_from {A : Type} (f : Z -> A -> A) (i : Z) (l : list A)
    (k : nat) :
  nth_error (mapi_from f i l) k
  = option_map (f (i + Z.of_nat k)) (nth_error l k).
Proof.
  revert i k. induction l as [| a l IH]; intros i k.
  - destruct k; reflexivity.
  - destruct k as [| k]; cbn [mapi_from nth_error option_map].
    + rewrite Z.add_0_r. reflexivity.
    + rewrite IH. f_equal. f_equal. lia.
Qed.

Lemma slice_range_inside (a b len : Z) :
  0 <= a -> a <= b -> b <= len -> slice_range a b len = (a, b - a).
Proof.
  intros Ha Hab Hb. unfold slice_range, slice_index.
  destruct (Z.ltb_spec a 0); [lia |].
  destruct (Z.ltb_spec b 0); [lia |].
  f_equal; lia.
Qed.

(** The rows of an image all have the width [w]. *)
Lemma cv2_resize_ok (frame : image) (w h : Z) :
  img_empty frame = false -> 0 < w -> 0 < h ->
  exists resized,
    cv2_resize frame w h = Ok resized
    /\ img_height resized = h
    /\ forall i, (i < Z.to_nat h)%nat ->
         exists r, nth_error resized i = Some r
                   /\ List.length r = Z.to_nat w.
Proof.
  intros Hne Hw Hh. unfold cv2_resize. rewrite Hne.
  destruct (Z.leb_spec w 0); [lia |].
  destruct (Z.leb_spec h 0); [lia |].
  cbn [orb]. eexists. split; [reflexivity |]. split.
  - unfold img_height. rewrite tabulate_length. lia.
  - intros i Hi. rewrite nth_error_tabulate by exact Hi.
    eexists. split; [reflexivity |]. apply tabulate_length.
Qed.

Lemma assign_on_filled (H W bg y0 x0 ph pw : Z) (patch : image) :
  0 < H -> 0 < W -> 0 <= y0 -> 0 <= x0 -> 0 < ph -> 0 < pw ->
  y0 + ph <= H -> x0 + pw <= W ->
  img_height patch = ph ->
  (forall i, (i < Z.to_nat ph)%nat ->
     exists r, nth_error patch i = Some r /\ List.length r = Z.to_nat pw) ->
  exists out,
    np_assign_region (repeat (repeat (bg, bg, bg) (Z.to_nat W)) (Z.to_nat H))
      y0 (y0 + ph) x0 (x0 + pw) patch = Ok out
    /\ img_height out = H
    /\ img_width out = W
    /\ forall y x,
        0 <= y < H -> 0 <= x < W ->
        pixel_at out y x
        = if (y0 <=? y) && (y <? y0 + ph) && ((x0 <=? x) && (x <? x0 + pw))
          then pixel_at patch (y - y0) (x - x0)
          else Some (bg, bg, bg).
Proof.
  intros HH HW Hy0 Hx0 Hph Hpw Hyfit Hxfit Hpatch Hrows.
  set (canvas := repeat (repeat (bg, bg, bg) (Z.to_nat W)) (Z.to_nat H)).
  assert (Hch : img_height canvas = H).
  { unfold img_height, canvas. rewrite repeat_length. lia. }
  assert (Hcw : img_width canvas = W).
  { unfold img_width, canvas.
    destruct (Z.to_nat H) as [| n] eqn:En; [lia |].
    cbn [repeat]. rewrite repeat_length. lia. }
  assert (Hpwid : img_width patch = pw).
  { destruct (Hrows 0%nat ltac:(lia)) as (r & Hr & Hlen).
    destruct patch as [| r0 patch']; [discriminate |].
    cbn in Hr. injection Hr as ->. unfold img_width. lia. }
  unfold np_assign_region.
  rewrite Hch, Hcw, Hpatch, Hpwid.
  rewrite (slice_range_inside y0 (y0 + ph) H) by lia.
  rewrite (slice_range_inside x0 (x0 + pw) W) by lia.
  replace (y0 + ph - y0) with ph by lia.
  replace (x0 + pw - x0) with pw by lia.
  rewrite !Z.eqb_refl. cbn [orb andb].
  eexists. split; [reflexivity |].
  split; [unfold img_height; rewrite mapi_from_length; exact Hch |].
  split.
  { unfold img_width, canvas.
    destruct (Z.to_nat H) as [| n] eqn:En; [lia |].
    cbn [repeat mapi_from].
    destruct ((y0 <=? 0) && (0 <? y0 + ph));
      [rewrite mapi_from_length |]; rewrite repeat_length; lia. }
  intros y x Hy Hx. unfold pixel_at at 1.
  destruct (Z.ltb_spec y 0); [lia |].
  destruct (Z.ltb_spec x 0); [lia |].
  cbn [orb].
  rewrite nth_error_mapi_from. unfold canvas.
  rewrite nth_error_repeat by lia. cbn [option_map].
  rewrite Z.add_0_l, Z2Nat.id by lia.
  destruct ((y0 <=? y) && (y <? y0 + ph)) eqn:Hyin; cbn [andb].
  - rewrite nth_error_mapi_from, nth_error_repeat by lia. cbn [option_map].
    rewrite Z.add_0_l, Z2Nat.id by lia.
    destruct ((x0 <=? x) && (x <? x0 + pw)) eqn:Hxin; [| reflexivity].
    apply andb_true_iff in Hyin, Hxin.
    rewrite Z.leb_le, Z.ltb_lt in Hyin, Hxin.
    assert (Hiy : (if ph =? 1 then 0 else y - y0) = y - y0)
      by (destruct (Z.eqb_spec ph 1); lia).
    assert (Hix : (if pw =? 1 then 0 else x - x0) = x - x0)
      by (destruct (Z.eqb_spec pw 1); lia).
    rewrite Hiy, Hix.
    destruct (Hrows (Z.to_nat (y - y0)) ltac:(lia)) as (r & Hr & Hlen).
    unfold pixel_at.
    destruct (Z.ltb_spec (y - y0) 0); [lia |].
    destruct (Z.ltb_spec (x - x0) 0); [lia |].
    cbn [orb]. rewrite Hr.
    rewrite (nth_error_nth _ _ [] Hr).
    symmetry. apply nth_error_nth'. lia.
  - rewrite nth_error_repeat by lia. reflexivity.
Qed.

(** X25. With the camera shown and at most 2696 rows, [render]'s camera step
    succeeds on every frame that is not empty: the resized frame has exactly
    the size of the camera block, the copy into the canvas never fails on a
    shape mismatch, and in the canvas returned every pixel of the block is
    the matching pixel of the resized frame while every pixel outside it
    keeps the background. *)
Theorem camera_step_places_frame (cfg : GridConfig) (sc : bool)
    (s : DataVisualizer) (frame : image) :
  reachable cfg sc s ->
  0 <= rows cfg <= 2696 ->
  show_camera_runtime s = true ->
  img_empty frame = false ->
  let cam_w := camera_width (sizes s) in
  let cam_h := camera_height (sizes s) in
  let camera_x := floordiv (width (layout s) - cam_w) 2 in
  exists resized canvas,
    cv2_resize frame cam_w cam_h = Ok resized
    /\ img_height resized = cam_h /\ img_width resized = cam_w
    /\ render_camera s (Some frame) = Ok canvas
    /\ img_height canvas = height (layout s)
    /\ img_width canvas = width (layout s)
    /\ forall y x,
        0 <= y < height (layout s) -> 0 <= x < width (layout s) ->
        pixel_at canvas y x
        = if (55 <=? y) && (y <? 55 + cam_h)
             && ((camera_x <=? x) && (x <? camera_x + cam_w))
          then pixel_at resized (y - 55) (x - camera_x)
          else Some (background, background, background).
Proof.
  intros Hr Hrows Hshow Hne. cbv zeta.
  destruct (camera_block_inside_canvas cfg sc s ltac:(lia) Hr Hshow)
    as (Hcy & Hy0 & Hy1 & Hx0 & Hx1).
  destruct (reachable_invariant _ _ _ Hr) as (_ & Hsz & _).
  destruct (sizes_closed_form cfg) as (sz & Hsz' & _ & _ & Hcase).
  rewrite Hsz in Hsz'. injection Hsz' as <-.
  assert (Hpos : 0 < camera_width (sizes s) /\ 0 < camera_height (sizes s)).
  { destruct Hcase as [(_ & _ & -> & ->) | (H3 & _ & -> & ->)]; [lia |].
    split; apply Z.div_str_pos; lia. }
  destruct Hpos as (Hcw & Hch).
  destruct (cv2_resize_ok frame _ _ Hne Hcw Hch)
    as (resized & Hres & Hrh & Hrrows).
  unfold padding, button_height in *.
  replace (10 + (35 + 10)) with 55 in * by reflexivity.
  destruct (assign_on_filled (height (layout s)) (width (layout s)) background
              55 (floordiv (width (layout s) - camera_width (sizes s)) 2)
              (camera_height (sizes s)) (camera_width (sizes s)) resized
              ltac:(lia) ltac:(lia) ltac:(lia) Hx0 Hch Hcw Hy1 Hx1 Hrh Hrrows)
    as (out & Hout & Hoh & How & Hpix).
  exists resized, out.
  split; [exact Hres |]. split; [exact Hrh |].
  split.
  { destruct (Hrrows 0%nat ltac:(lia)) as (r & Hr0 & Hlen).
    destruct resized as [| r0 rest]; [discriminate |].
    cbn in Hr0. injection Hr0 as ->. unfold img_width. lia. }
  split.
  { unfold render_camera.
    rewrite (np_filled_ok _ _ background) by lia.
    rewrite Hshow. cbn [bind]. rewrite Hres. cbn [bind].
    rewrite Hcy. exact Hout. }
  split; [exact Hoh |]. split; [exact How |]. exact Hpix.
Qed.

Lemma camera_step_places_frame_witness :
  exists s,
    session (mkGridConfig 100 1) true [pointerDown 110 20] = Ok s
    /\ is_ok (render_camera s (Some [[(1, 2, 3)]])) = true.
Proof.
  eexists. split; [vm_compute; reflexivity |].
  match goal with
  | |- is_ok (render_camera ?s (Some ?f)) = true =>
      assert (Hr : reachable (mkGridConfig 100 1) true s);
      [| destruct (camera_step_places_frame (mkGridConfig 100 1) true s f Hr
                     ltac:(cbn; lia) ltac:(reflexivity) ltac:(reflexivity))
           as (resized & canvas & _ & _ & _ & Hok & _);
         exact (f_equal is_ok Hok) ]
  end.
  match goal with
  | |- reachable _ _ ?s =>
      change s with
        (deliver (pointerDown 110 20)
           (mkDataVisualizer (mkGridConfig 100 1) false true true
              (mkSizes 8 34 26 28 1810)
              (mkLayout 10 (Some 55) (Some 91) 1911 54
                 (-193, 10, -53, 45) (-43, 10, 97, 45) (107, 10, 247, 45))
              None None))
  end.
  apply reach_event. apply reach_init. vm_compute. reflexivity.
Defined.

(** ** Sizes after construction *)

(** X26. The sizing is done once: every state reached from a constructed
    object, through any pointer events and presentations, still holds the
    configuration it was built with and the very sizes computed at
    construction. *)
Theorem sizes_fixed_after_construction (cfg : GridConfig) (sc : bool)
    (v s : DataVisualizer) :
  __init__ cfg sc = Ok v ->
  reachable cfg sc s ->
  grid_config s = cfg /\ sizes s = sizes v.
Proof.
  intros Hinit Hr.
  destruct (reachable_invariant _ _ _ Hr) as (Hcfg & Hsz & _).
  destruct (reachable_invariant _ _ _ (reach_init _ _ _ Hinit))
    as (_ & Hsz' & _).
  split; [exact Hcfg | congruence].
Qed.

Lemma sizes_fixed_after_construction_witness :
  exists v,
    __init__ (mkGridConfig 4 3) true = Ok v
    /\ sizes (deliver_all [pointerDown 270 20; pointerMove 3 4;
                            pointerDown 420 20] v)
       = sizes v.
Proof.
  eexists. split; [vm_compute; reflexivity |].
  match goal with
  | |- sizes (deliver_all ?es ?v) = _ =>
      assert (Hinit : __init__ (mkGridConfig 4 3) true = Ok v)
        by (vm_compute; reflexivity);
      apply (sizes_fixed_after_construction _ _ v _ Hinit)
  end.
  unfold deliver_all. cbn [fold_left].
  do 3 apply reach_event. apply reach_init. vm_compute. reflexivity.
Defined.

(** ** [render] on an absent or empty frame *)

Section AbsentFrame.

Variable getTextSize : string -> Z -> float -> Z -> Z * Z.
Variable format_0f : float -> string.
Variable format_2f : float -> string.







End AbsentFrame.


